(** * KLineChart time axis (XAxisImp): a shallow embedding and its properties

    The development follows the axis component of the chart: the visible
    range ([calcRange]), the tick generator ([optimalTicks],
    [_optimalTicks] and the legacy pass that follows the early return), the
    axis sizing ([getAutoSize]) and the pixel conversions
    ([convertToPixel], [convertFromPixel]).

    Numbers are JavaScript numbers in the source; data indices, pixel
    coordinates and style sizes are modelled as [Z], the measured width of
    a label as [Q].  A property access on [undefined] (a bar that is not in
    the data list) raises [TypeError]; the functions that can raise return a
    [result]. *)

From Stdlib Require Import ZArith List String Ascii Bool Lia.
From Stdlib Require Import QArith Qround DecimalString Sorted.
From Stdlib Require DecimalZ DecimalPos.
From Stdlib Require Import Lqa.
Import ListNotations.

Open Scope string_scope.
Open Scope Z_scope.

(** ** Results of code that can throw *)

(** [OutOfFuel] is the outcome of a loop that has not stopped within the
    number of turns it was given. *)
Inductive result (A : Type) : Type :=
| Ok (a : A)
| TypeError
| OutOfFuel.

Arguments Ok {A} a.
Arguments TypeError {A}.
Arguments OutOfFuel {A}.

Definition bind {A B : Type} (r : result A) (k : A -> result B) : result B :=
  match r with
  | Ok a => k a
  | TypeError => TypeError
  | OutOfFuel => OutOfFuel
  end.

Notation "x <- r ;; k" := (bind r (fun x => k))
  (at level 61, r at next level, right associativity).

(** ** The JavaScript runtime *)

Module Js.

(** [`${n}`] for an integer number [n]. *)
Definition numberToString (n : Z) : string :=
  NilZero.string_of_int (Z.to_int n).

(** The part of [Date] the axis reads, as functions of the timestamp
    (milliseconds since the epoch) handed to [new Date].  The time zone
    and the locale belong to the host, so they are fields.  The
    timestamps are valid ones, for which every getter answers a number;
    the [NaN] of an [Invalid Date] is not among the values. *)
Record DateApi : Type := {
  getDate : Z -> Z;
  getMonth : Z -> Z;
  getFullYear : Z -> Z;
  (** [dt.toLocaleString('default', {month: 'short'})] *)
  monthShort : Z -> string
}.

(** [a !== b] where [a] is a number and [b] is a number or [null]. *)
Definition strictNe (a : Z) (b : option Z) : bool :=
  match b with
  | Some b' => negb (a =? b')
  | None => true
  end.

(** [a === b] where [a] is a number and [b] is a number or [null]. *)
Definition strictEq (a : Z) (b : option Z) : bool :=
  match b with
  | Some b' => a =? b'
  | None => false
  end.

(** [array[i]]: [undefined] ([None]) outside the array. *)
Definition index {A : Type} (l : list A) (i : Z) : option A :=
  if i <? 0 then None else nth_error l (Z.to_nat i).

(** A host with the UTC time zone and an English locale, for running the
    code on concrete bars, whose timestamps lie in the range of [Date]. *)
Module Utc.

Definition msPerDay : Z := 86400000.

Definition daysOf (ts : Z) : Z := ts / msPerDay.

(** Civil date of a day count since 1970-01-01 (proleptic Gregorian). *)
Definition civil (days : Z) : Z * Z * Z :=
  let z := days + 719468 in
  let era := z / 146097 in
  let doe := z - era * 146097 in
  let yoe := (doe - doe / 1460 + doe / 36524 - doe / 146096) / 365 in
  let y := yoe + era * 400 in
  let doy := doe - (365 * yoe + yoe / 4 - yoe / 100) in
  let mp := (5 * doy + 2) / 153 in
  let d := doy - (153 * mp + 2) / 5 + 1 in
  let m := if mp <? 10 then mp + 3 else mp - 9 in
  (if m <=? 2 then y + 1 else y, m, d).

Definition year (ts : Z) : Z := fst (fst (civil (daysOf ts))).
Definition month1 (ts : Z) : Z := snd (fst (civil (daysOf ts))).
Definition day (ts : Z) : Z := snd (civil (daysOf ts)).
Definition hours (ts : Z) : Z := (ts mod msPerDay) / 3600000.
Definition minutes (ts : Z) : Z := (ts mod 3600000) / 60000.

Definition shortNames : list string :=
  ["Jan"; "Feb"; "Mar"; "Apr"; "May"; "Jun";
   "Jul"; "Aug"; "Sep"; "Oct"; "Nov"; "Dec"].

Definition date : DateApi := {|
  getDate := day;
  getMonth := fun ts => month1 ts - 1;
  getFullYear := year;
  monthShort := fun ts => nth (Z.to_nat (month1 ts - 1)) shortNames ""
|}.

Definition pad2 (n : Z) : string :=
  if n <? 10 then "0" ++ numberToString n else numberToString n.

(** The default [formatDate] of the chart for the patterns the axis
    asks for. *)
Definition formatDate (ts : Z) (format : string) : string :=
  if String.eqb format "YYYY" then numberToString (year ts)
  else if String.eqb format "YYYY-MM" then
    numberToString (year ts) ++ "-" ++ pad2 (month1 ts)
  else if String.eqb format "MM-DD" then
    pad2 (month1 ts) ++ "-" ++ pad2 (day ts)
  else if String.eqb format "HH:mm" then
    pad2 (hours ts) ++ ":" ++ pad2 (minutes ts)
  else if String.eqb format "YYYY-MM-DD HH:mm" then
    numberToString (year ts) ++ "-" ++ pad2 (month1 ts) ++ "-" ++
    pad2 (day ts) ++ " " ++ pad2 (hours ts) ++ ":" ++ pad2 (minutes ts)
  else format.

End Utc.

End Js.

(** ** The data the axis reads *)

(** A bar of the data list; the axis reads its [timestamp] and, for the
    two- and three-hour charts, its [week], both numbers. *)
Record KLineData : Type := {
  timestamp : Z;
  week : Z
}.

Record VisibleRange : Type := {
  vr_from : Z;
  vr_to : Z
}.

Record BarSpace : Type := {
  gapBar : Z;
  halfGapBar : Z;
  halfBar : Z
}.

(** What the axis calls on the time scale store. *)
Record TimeScaleStore : Type := {
  getVisibleRange : VisibleRange;
  getBarSpace : BarSpace;
  coordinateToDataIndex : Z -> option Z;
  dataIndexToCoordinate : Z -> Z
}.

Record AxisRange : Type := {
  from : Z;
  to : Z;
  range : Z;
  realFrom : Z;
  realTo : Z;
  realRange : Z
}.

Record AxisTick : Type := {
  text : string;
  coord : Z;
  value : Z
}.

(** ** Styles *)

Inductive AxisSize : Type :=
| Auto
| Px (height : Z).

Record AxisLineStyle : Type := { axisLine_show : bool; axisLine_size : Z }.
Record TickLineStyle : Type := { tickLine_show : bool; tickLine_length : Z }.

Record TickTextStyle : Type := {
  tickText_show : bool;
  tickText_marginStart : Z;
  tickText_marginEnd : Z;
  tickText_size : Z;
  tickText_weight : string;
  tickText_family : string
}.

Record XAxisStyle : Type := {
  xAxis_show : bool;
  xAxis_size : AxisSize;
  axisLine : AxisLineStyle;
  tickLine : TickLineStyle;
  tickText : TickTextStyle
}.

Record CrosshairTextStyle : Type := {
  ctext_show : bool;
  paddingTop : Z;
  paddingBottom : Z;
  borderSize : Z;
  ctext_size : Z
}.

Record CrosshairVerticalStyle : Type := {
  vertical_show : bool;
  vertical_text : CrosshairTextStyle
}.

Record CrosshairStyle : Type := {
  crosshair_show : bool;
  vertical : CrosshairVerticalStyle
}.

Record Styles : Type := {
  xAxis : XAxisStyle;
  crosshair : CrosshairStyle
}.

(** The chart as the axis reaches it through
    [this.getParent().getChart()]: the host's [Date], the time scale
    store, the data list, the styles, the date formatter of the custom API
    (closed over the store's date-time format and [FormatDateType.XAxis]),
    the canvas text measure and the ambient [window.api?.interval]. *)
Record Chart : Type := {
  date : Js.DateApi;
  getTimeScaleStore : TimeScaleStore;
  getDataList : list KLineData;
  getStyles : Styles;
  formatDate : Z -> string -> string;
  calcTextWidth : string -> Z -> string -> string -> Q;
  api_interval : option string
}.

(** ** Loops *)

(** [for (let i = start; ...; ++i) body], run [n] times unless the body
    throws. *)
Fixpoint for_loop {S : Type} (n : nat) (i : Z)
    (body : Z -> S -> result S) (s : S) : result S :=
  match n with
  | O => Ok s
  | S n' => s' <- body i s ;; for_loop n' (i + 1) body s'
  end.

(** [for (let i = lo; i <= hi; ++i) body] *)
Definition for_range {S : Type} (lo hi : Z)
    (body : Z -> S -> result S) (s : S) : result S :=
  for_loop (Z.to_nat (hi - lo + 1)) lo body s.

(** A function body whose first statement returns: the statements after
    it are the second argument. *)
Inductive completion (A : Type) : Type :=
| Return (a : A)
| Normal.

Arguments Return {A} a.
Arguments Normal {A}.

Definition then_ {A : Type} (first : completion A) (rest : A) : A :=
  match first with
  | Return a => a
  | Normal => rest
  end.

(** ** XAxisImp *)

Section XAxisImp.

Variable chart : Chart.

Definition calcRange : AxisRange :=
  let vr := getVisibleRange (getTimeScaleStore chart) in
  let af := vr_from vr in
  let at_ := vr_to vr - 1 in
  let range := vr_to vr - vr_from vr in
  {| from := af; to := at_; range := range;
     realFrom := af; realTo := at_; realRange := range |}.

(** Modelled from the spec: [getRange] belongs to the base class
    [AxisImp], which is not part of the sources; it hands back the range
    that [calcRange] computed for the current redraw. *)
Definition getRange : AxisRange := calcRange.

Definition convertFromPixel (pixel : Z) : option Z :=
  coordinateToDataIndex (getTimeScaleStore chart) pixel.

Definition convertToPixel (value : Z) : Z :=
  dataIndexToCoordinate (getTimeScaleStore chart) value.

(** [(window as any).api?.interval || '1d'] *)
Definition interval : string :=
  match api_interval chart with
  | Some s => if String.eqb s "" then "1d" else s
  | None => "1d"
  end.

(** The groups of [case] labels of the [switch] in [_optimalTicks]. *)
Inductive IntervalClass : Type :=
| SubHourToHour
| TwoThreeHour
| Daily
| WeekMonth
| Unrecognized.

Definition isOneOf (s : string) (labels : list string) : bool :=
  existsb (String.eqb s) labels.

Definition classify (s : string) : IntervalClass :=
  if isOneOf s ["5m"; "10m"; "15m"; "30m"; "1h"] then SubHourToHour
  else if isOneOf s ["2h"; "3h"] then TwoThreeHour
  else if isOneOf s ["1d"] then Daily
  else if isOneOf s ["1w"; "1mo"] then WeekMonth
  else Unrecognized.

Definition push (optimalTicks : list AxisTick) (t : AxisTick) : list AxisTick :=
  (optimalTicks ++ [t])%list.

(** Body of the loop of the cases '5m' ... '1h'; the state is
    [(prevMonth, prevDay, optimalTicks)]. *)
Definition subHourBody (i : Z)
    (st : option Z * option Z * list AxisTick)
    : result (option Z * option Z * list AxisTick) :=
  let '(prevMonth, prevDay, optimalTicks) := st in
  match Js.index (getDataList chart) i with
  | None => TypeError
  | Some row =>
    let dt := timestamp row in
    let day := Js.getDate (date chart) dt in
    let month := Js.getMonth (date chart) dt in
    let optimalTicks :=
      if Js.strictNe day prevDay then
        push optimalTicks
          {| text := if Js.strictEq month prevMonth
                     then Js.numberToString day
                     else Js.monthShort (date chart) dt ++ " " ++ Js.numberToString day;
             coord := convertToPixel i - halfBar (getBarSpace (getTimeScaleStore chart));
             value := i |}
      else optimalTicks in
    Ok (Some month, Some day, optimalTicks)
  end.

(** Body of the loop of the cases '2h' and '3h'; the state is
    [(prevMonth, prevWeek, optimalTicks)]. *)
Definition twoThreeHourBody (i : Z)
    (st : option Z * option Z * list AxisTick)
    : result (option Z * option Z * list AxisTick) :=
  let '(prevMonth, prevWeek, optimalTicks) := st in
  match Js.index (getDataList chart) i with
  | None => TypeError
  | Some row =>
    let week := week row in
    let dt := timestamp row in
    let month := Js.getMonth (date chart) dt in
    let optimalTicks :=
      if Js.strictNe week prevWeek then
        push optimalTicks
          {| text := if Js.strictEq month prevMonth
                     then Js.numberToString (Js.getDate (date chart) dt)
                     else Js.numberToString (Js.getDate (date chart) dt) ++ " " ++
                          Js.monthShort (date chart) dt;
             coord := convertToPixel i;
             value := i |}
      else optimalTicks in
    Ok (Some month, Some week, optimalTicks)
  end.

(** Body of the loop of the case '1d'; the state is
    [(prevYear, prevMonth, optimalTicks)]. *)
Definition dailyBody (i : Z)
    (st : option Z * option Z * list AxisTick)
    : result (option Z * option Z * list AxisTick) :=
  let '(prevYear, prevMonth, optimalTicks) := st in
  match Js.index (getDataList chart) i with
  | None => TypeError
  | Some row =>
    let dt := timestamp row in
    let month := Js.getMonth (date chart) dt in
    let year := Js.getFullYear (date chart) dt in
    let shortMonth := Js.monthShort (date chart) dt in
    let optimalTicks :=
      if Js.strictNe month prevMonth then
        push optimalTicks
          {| text := if Js.strictEq year prevYear
                     then shortMonth
                     else Js.numberToString (Js.getFullYear (date chart) dt);
             coord := convertToPixel i;
             value := i |}
      else optimalTicks in
    Ok (Some year, Some month, optimalTicks)
  end.

(** Body of the loop of the cases '1w' and '1mo'; the state is
    [(prevYear, optimalTicks)]. *)
Definition weekMonthBody (i : Z) (st : option Z * list AxisTick)
    : result (option Z * list AxisTick) :=
  let '(prevYear, optimalTicks) := st in
  match Js.index (getDataList chart) i with
  | None => TypeError
  | Some row =>
    let dt := timestamp row in
    let year := Js.getFullYear (date chart) dt in
    let optimalTicks :=
      if Js.strictNe year prevYear then
        push optimalTicks
          {| text := Js.numberToString year; coord := convertToPixel i; value := i |}
      else optimalTicks in
    Ok (Some year, optimalTicks)
  end.

(** The argument [ticks] is not read. *)
Definition _optimalTicks (ticks : list AxisTick) : result (list AxisTick) :=
  let realFrom := realFrom getRange in
  let realTo := realTo getRange in
  let optimalTicks : list AxisTick := [] in
  match classify interval with
  | SubHourToHour =>
    st <- for_range realFrom realTo subHourBody (None, None, optimalTicks) ;;
    Ok (snd st)
  | TwoThreeHour =>
    st <- for_range realFrom realTo twoThreeHourBody (None, None, optimalTicks) ;;
    Ok (snd st)
  | Daily =>
    st <- for_range realFrom realTo dailyBody (None, None, optimalTicks) ;;
    Ok (snd st)
  | WeekMonth =>
    st <- for_range realFrom realTo weekMonthBody (None, optimalTicks) ;;
    Ok (snd st)
  | Unrecognized => Ok optimalTicks
  end.

Definition _optimalTickLabel (timestamp comparedTimestamp : Z) : option string :=
  let year := formatDate chart timestamp "YYYY" in
  let month := formatDate chart timestamp "YYYY-MM" in
  let day := formatDate chart timestamp "MM-DD" in
  if negb (String.eqb year (formatDate chart comparedTimestamp "YYYY")) then Some year
  else if negb (String.eqb month (formatDate chart comparedTimestamp "YYYY-MM")) then Some month
  else if negb (String.eqb day (formatDate chart comparedTimestamp "MM-DD")) then Some day
  else None.

(** [a ?? b] *)
Definition nullish {A : Type} (a : option A) (b : A) : A :=
  match a with
  | Some x => x
  | None => b
  end.

(** *** The statements of [optimalTicks] after its first [return] *)

(** [tickCountDif]: a positive integer or, after a division by a zero
    gap, [Infinity]. *)
Inductive Stride : Type :=
| Finite (n : Z)
| Infinity.

Definition defaultLabelWidth : Q :=
  let tickTextStyles := tickText (xAxis (getStyles chart)) in
  calcTextWidth chart "00-00 00:00" (tickText_size tickTextStyles)
    (tickText_weight tickTextStyles) (tickText_family tickTextStyles).

(** [Math.abs(nextX - x)] for the first two ticks. *)
Definition xDifOf (t0 t1 : AxisTick) : Z :=
  let x := convertToPixel (value t0) in
  let nextX := convertToPixel (value t1) in
  Z.abs (nextX - x).

Definition tickCountDifOf (ticks : list AxisTick) : Stride :=
  match ticks with
  | t0 :: t1 :: _ =>
    let xDif := xDifOf t0 t1 in
    if Qlt_le_dec (inject_Z xDif) defaultLabelWidth then
      if xDif =? 0 then Infinity
      else Finite (Qceiling (defaultLabelWidth / inject_Z xDif))
    else Finite 1
  | _ => Finite 1
  end.

(** [dataList[pos].timestamp] *)
Definition timestampAt (pos : Z) : result Z :=
  match Js.index (getDataList chart) pos with
  | Some kLineData => Ok (timestamp kLineData)
  | None => TypeError
  end.

(** [ticks[i].value], parsed as an integer. *)
Definition posAt (ticks : list AxisTick) (i : Z) : result Z :=
  match Js.index ticks i with
  | Some t => Ok (value t)
  | None => TypeError
  end.

(** One turn of [for (let i = 0; i < tickLength; i += tickCountDif)];
    [ticks[i - Infinity]] is [undefined]. *)
Definition strideBody (ticks : list AxisTick) (tickCountDif : Stride)
    (i : Z) (optimalTicks : list AxisTick) : result (list AxisTick) :=
  pos <- posAt ticks i ;;
  timestamp <- timestampAt pos ;;
  let text := formatDate chart timestamp "HH:mm" in
  text <- (if negb (i =? 0) then
             match tickCountDif with
             | Finite d =>
               prevPos <- posAt ticks (i - d) ;;
               prevTimestamp <- timestampAt prevPos ;;
               Ok (nullish (_optimalTickLabel timestamp prevTimestamp) text)
             | Infinity => TypeError
             end
           else Ok text) ;;
  let x := convertToPixel pos in
  Ok (push optimalTicks {| text := text; coord := x; value := timestamp |}).

Fixpoint strideLoop (fuel : nat) (ticks : list AxisTick) (tickCountDif : Stride)
    (i : Z) (optimalTicks : list AxisTick) : result (list AxisTick) :=
  match fuel with
  | O => OutOfFuel
  | S fuel' =>
    if i <? Z.of_nat (List.length ticks) then
      optimalTicks' <- strideBody ticks tickCountDif i optimalTicks ;;
      match tickCountDif with
      | Finite d => strideLoop fuel' ticks tickCountDif (i + d) optimalTicks'
      | Infinity => Ok optimalTicks'
      end
    else Ok optimalTicks
  end.

(** [regexp.test(s)] for the three anchored patterns of the relabeling
    pass: a sequence of [[0-9]] and [-] items. *)
Inductive PatItem : Type :=
| Digit
| Dash.

Definition isDigit (c : ascii) : bool :=
  let n := nat_of_ascii c in (48 <=? n)%nat && (n <=? 57)%nat.

Fixpoint test (pat : list PatItem) (s : string) : bool :=
  match pat, s with
  | [], EmptyString => true
  | Digit :: pat', String c s' => isDigit c && test pat' s'
  | Dash :: pat', String c s' => Ascii.eqb c "-" && test pat' s'
  | _, _ => false
  end.

Definition reMonthDay : list PatItem := [Digit; Digit; Dash; Digit; Digit].
Definition reYearMonth : list PatItem :=
  [Digit; Digit; Digit; Digit; Dash; Digit; Digit].
Definition reYear : list PatItem := [Digit; Digit; Digit; Digit].

Definition withText (t : AxisTick) (s : string) : AxisTick :=
  {| text := s; coord := coord t; value := value t |}.

(** The statements from [const optimalTickLength = optimalTicks.length]
    to the end of the [if (tickLength > 0)] block. *)
Definition relabelFirst (optimalTicks : list AxisTick) : result (list AxisTick) :=
  match optimalTicks with
  | [t] => Ok [withText t (formatDate chart (value t) "YYYY-MM-DD HH:mm")]
  | t0 :: t1 :: rest =>
    let firstTimestamp := value t0 in
    let secondTimestamp := value t1 in
    match rest with
    | t2 :: _ =>
      let thirdText := text t2 in
      if test reMonthDay thirdText then
        Ok (withText t0 (formatDate chart firstTimestamp "MM-DD") :: t1 :: rest)
      else if test reYearMonth thirdText then
        Ok (withText t0 (formatDate chart firstTimestamp "YYYY-MM") :: t1 :: rest)
      else if test reYear thirdText then
        Ok (withText t0 (formatDate chart firstTimestamp "YYYY") :: t1 :: rest)
      else Ok optimalTicks
    | [] =>
      Ok (withText t0 (nullish (_optimalTickLabel firstTimestamp secondTimestamp) (text t0))
            :: t1 :: rest)
    end
  | [] => TypeError
  end.

(** The stride loop on its own: the candidate ticks that are kept,
    before the relabeling pass. *)
Definition strideTicks (ticks : list AxisTick) : result (list AxisTick) :=
  strideLoop (S (List.length ticks)) ticks (tickCountDifOf ticks) 0 [].

(** Everything after [return this._optimalTicks(ticks)]. *)
Definition legacyOptimalTicks (ticks : list AxisTick) : result (list AxisTick) :=
  let optimalTicks : list AxisTick := [] in
  let tickLength := Z.of_nat (List.length ticks) in
  if 0 <? tickLength then
    optimalTicks <- strideTicks ticks ;;
    relabelFirst optimalTicks
  else Ok optimalTicks.

Definition optimalTicks (ticks : list AxisTick) : result (list AxisTick) :=
  then_ (Return (_optimalTicks ticks)) (legacyOptimalTicks ticks).

(** *** Axis sizing *)

Definition xAxisHeightOf (xAxisStyles : XAxisStyle) : Z :=
  let xAxisHeight := 0 in
  if xAxis_show xAxisStyles then
    let xAxisHeight :=
      if axisLine_show (axisLine xAxisStyles)
      then xAxisHeight + axisLine_size (axisLine xAxisStyles)
      else xAxisHeight in
    let xAxisHeight :=
      if tickLine_show (tickLine xAxisStyles)
      then xAxisHeight + tickLine_length (tickLine xAxisStyles)
      else xAxisHeight in
    let xAxisHeight :=
      if tickText_show (tickText xAxisStyles)
      then xAxisHeight + (tickText_marginStart (tickText xAxisStyles) +
                          tickText_marginEnd (tickText xAxisStyles) +
                          tickText_size (tickText xAxisStyles))
      else xAxisHeight in
    xAxisHeight
  else xAxisHeight.

Definition crosshairVerticalTextHeightOf (crosshairStyles : CrosshairStyle) : Z :=
  let crosshairVerticalTextHeight := 0 in
  if crosshair_show crosshairStyles &&
     vertical_show (vertical crosshairStyles) &&
     ctext_show (vertical_text (vertical crosshairStyles))
  then
    let t := vertical_text (vertical crosshairStyles) in
    crosshairVerticalTextHeight +
      (paddingTop t + paddingBottom t + borderSize t * 2 + ctext_size t)
  else crosshairVerticalTextHeight.

Definition getAutoSize : Z :=
  let styles := getStyles chart in
  let xAxisStyles := xAxis styles in
  match xAxis_size xAxisStyles with
  | Px height => height
  | Auto =>
    let crosshairStyles := crosshair styles in
    Z.max (xAxisHeightOf xAxisStyles) (crosshairVerticalTextHeightOf crosshairStyles)
  end.

End XAxisImp.

(** ** The time scale store *)

(** Modelled from the spec: the time scale store (its
    [coordinateToDataIndex] and [dataIndexToCoordinate]) is not part of
    the sources.  The spec gives it a pan/zoom state with a constant bar
    spacing, a visible range with [0 <= from <= to <= totalBarCount], a
    forward transform that is monotonic in the data index and lands on the
    bar centre, and an inverse that answers [null] for a pixel outside any
    addressable index. *)
Module SpecStore.

Record PanZoom : Type := {
  visibleFrom : Z;
  visibleTo : Z;
  totalBarCount : Z;
  (** pixel width allocated to one bar at the current zoom level *)
  barSpace : Z;
  (** pixel of the left edge of bar 0 at the current pan position *)
  panOffset : Z
}.

Definition wellFormed (pz : PanZoom) : Prop :=
  0 < barSpace pz /\
  0 <= visibleFrom pz <= visibleTo pz /\ visibleTo pz <= totalBarCount pz.

(** Modelled from the spec: the forward transform [dataIndexToPixel],
    missing from the sources; bars are [barSpace] pixels apart and the
    coordinate of a bar is its centre. *)
Definition dataIndexToPixel (pz : PanZoom) (dataIndex : Z) : Z :=
  panOffset pz + dataIndex * barSpace pz + barSpace pz / 2.

(** Modelled from the spec: the inverse transform [pixelToDataIndex],
    missing from the sources; the bar whose cell holds the pixel, [null]
    when no bar of the data list does. *)
Definition pixelToDataIndex (pz : PanZoom) (pixel : Z) : option Z :=
  let dataIndex := (pixel - panOffset pz) / barSpace pz in
  if (0 <=? dataIndex) && (dataIndex <? totalBarCount pz)
  then Some dataIndex
  else None.

Definition store (pz : PanZoom) : TimeScaleStore := {|
  getVisibleRange := {| vr_from := visibleFrom pz; vr_to := visibleTo pz |};
  getBarSpace := {| gapBar := barSpace pz; halfGapBar := barSpace pz / 2;
                    halfBar := barSpace pz / 2 |};
  coordinateToDataIndex := pixelToDataIndex pz;
  dataIndexToCoordinate := dataIndexToPixel pz
|}.

End SpecStore.

(** ** Closed forms of the tick loops *)

(** The data indices [lo], [lo + 1], ... ([n] of them). *)
Fixpoint zseq (lo : Z) (n : nat) : list Z :=
  match n with
  | O => []
  | S n' => lo :: zseq (lo + 1) n'
  end.

Definition defaultBar : KLineData := {| timestamp := 0; week := 0 |}.

Section Groups.

Variable chart : Chart.

(** The spec's invariant of the visible range. *)
Definition rangeInvariant : Prop :=
  let vr := getVisibleRange (getTimeScaleStore chart) in
  0 <= vr_from vr <= vr_to vr /\
  vr_to vr <= Z.of_nat (List.length (getDataList chart)).

(** Every index from [realFrom] to [realTo] is a bar of the data list. *)
Definition barsInRange : Prop :=
  0 <= realFrom (getRange chart) /\
  realTo (getRange chart) < Z.of_nat (List.length (getDataList chart)).

(** The indices from [realFrom] to [realTo]. *)
Definition visibleIndices : list Z :=
  zseq (realFrom (getRange chart))
       (Z.to_nat (realTo (getRange chart) - realFrom (getRange chart) + 1)).

Definition rowAt (i : Z) : KLineData := nth (Z.to_nat i) (getDataList chart) defaultBar.

Definition dayOf (i : Z) : Z := Js.getDate (date chart) (timestamp (rowAt i)).
Definition monthOf (i : Z) : Z := Js.getMonth (date chart) (timestamp (rowAt i)).
Definition yearOf (i : Z) : Z := Js.getFullYear (date chart) (timestamp (rowAt i)).
Definition weekOf (i : Z) : Z := week (rowAt i).
Definition shortMonthOf (i : Z) : string :=
  Js.monthShort (date chart) (timestamp (rowAt i)).

(** Bar [i] is the first visible bar, or its [key] differs from the
    [key] of the bar before it: it opens a group. *)
Definition opens (key : Z -> Z) (i : Z) : bool :=
  (i =? realFrom (getRange chart)) || negb (key i =? key (i - 1)).

(** Bar [i] has a bar before it in the visible range with the same
    [key]. *)
Definition sameAsPrevious (key : Z -> Z) (i : Z) : bool :=
  negb (i =? realFrom (getRange chart)) && (key i =? key (i - 1)).

Definition subHourTick (i : Z) : AxisTick :=
  {| text := if sameAsPrevious monthOf i
             then Js.numberToString (dayOf i)
             else shortMonthOf i ++ " " ++ Js.numberToString (dayOf i);
     coord := convertToPixel chart i - halfBar (getBarSpace (getTimeScaleStore chart));
     value := i |}.

Definition twoThreeHourTick (i : Z) : AxisTick :=
  {| text := if sameAsPrevious monthOf i
             then Js.numberToString (dayOf i)
             else Js.numberToString (dayOf i) ++ " " ++ shortMonthOf i;
     coord := convertToPixel chart i;
     value := i |}.

Definition dailyTick (i : Z) : AxisTick :=
  {| text := if sameAsPrevious yearOf i
             then shortMonthOf i
             else Js.numberToString (yearOf i);
     coord := convertToPixel chart i;
     value := i |}.

Definition weekMonthTick (i : Z) : AxisTick :=
  {| text := Js.numberToString (yearOf i);
     coord := convertToPixel chart i;
     value := i |}.

(** The ticks of the visible range, by interval class: one per bar that
    opens a group of its key. *)
Definition groupTicks : list AxisTick :=
  match classify (interval chart) with
  | SubHourToHour => map subHourTick (filter (opens dayOf) visibleIndices)
  | TwoThreeHour => map twoThreeHourTick (filter (opens weekOf) visibleIndices)
  | Daily => map dailyTick (filter (opens monthOf) visibleIndices)
  | WeekMonth => map weekMonthTick (filter (opens yearOf) visibleIndices)
  | Unrecognized => []
  end.

(** Bars [i] and [j] lie in the same month of the same year. *)
Definition sameCalendarMonth (i j : Z) : Prop :=
  yearOf i = yearOf j /\ monthOf i = monthOf j.

(** The calendar month of bar [i] is not after that of bar [j]. *)
Definition monthNotAfter (i j : Z) : Prop :=
  yearOf i < yearOf j \/ (yearOf i = yearOf j /\ monthOf i <= monthOf j).

(** The visible bars are in chronological order, and two neighbours
    with the same month number lie in the same year (no bar follows its
    neighbour by a whole number of years). *)
Definition chronologicalDaily : Prop :=
  forall j, realFrom (getRange chart) < j <= realTo (getRange chart) ->
    monthNotAfter (j - 1) j /\
    (monthOf (j - 1) = monthOf j -> yearOf (j - 1) = yearOf j).

(** Bars [i] and [j] lie on the same day of the same month and year. *)
Definition sameCalendarDay (i j : Z) : Prop :=
  yearOf i = yearOf j /\ monthOf i = monthOf j /\ dayOf i = dayOf j.

(** The calendar day of bar [i] is not after that of bar [j]. *)
Definition dayNotAfter (i j : Z) : Prop :=
  yearOf i < yearOf j \/
  (yearOf i = yearOf j /\
   (monthOf i < monthOf j \/ (monthOf i = monthOf j /\ dayOf i <= dayOf j))).

(** The visible bars are in chronological order, and two neighbours
    with the same day number lie in the same month and year (no bar
    follows its neighbour on the same day number of another month). *)
Definition chronologicalIntraday : Prop :=
  forall j, realFrom (getRange chart) < j <= realTo (getRange chart) ->
    dayNotAfter (j - 1) j /\
    (dayOf (j - 1) = dayOf j ->
     monthOf (j - 1) = monthOf j /\ yearOf (j - 1) = yearOf j).

(** The key that the loop of the chart's interval class compares between
    neighbouring bars. *)
Definition groupKeyOf : Z -> Z :=
  match classify (interval chart) with
  | SubHourToHour => dayOf
  | TwoThreeHour => weekOf
  | Daily => monthOf
  | WeekMonth => yearOf
  | Unrecognized => fun _ => 0
  end.

(** The previous-group keys a loop holds when it reaches bar [j]: the
    initial ones at the first bar [lo], those of bar [j - 1] after. *)
Definition keysBefore {St : Type} (next : KLineData -> St)
    (lo : Z) (s0 : St) (j : Z) : St :=
  if j =? lo then s0 else next (rowAt (j - 1)).

End Groups.

(** Keeping every [N]-th element of a list, starting from index 0:
    [countdown] elements are skipped before the next one is kept. *)
Fixpoint everyNthFrom {A : Type} (N : nat) (countdown : nat) (l : list A) : list A :=
  match l with
  | [] => []
  | x :: l' =>
    match countdown with
    | O => x :: everyNthFrom N (N - 1) l'
    | S k => everyNthFrom N k l'
    end
  end.

Definition everyNth {A : Type} (N : nat) (l : list A) : list A := everyNthFrom N 0 l.

(** The stride of the density reduction: [ceil(referenceWidth / gap)] when
    the gap is smaller than the reference width, 1 otherwise. *)
Definition strideFor (referenceWidth : Q) (gap : Z) : Z :=
  if Qlt_le_dec (inject_Z gap) referenceWidth
  then Qceiling (referenceWidth / inject_Z gap)
  else 1.

(** Every candidate tick names a bar of the data list. *)
Definition candidatesInData (chart : Chart) (ticks : list AxisTick) : Prop :=
  forall t, In t ticks ->
    0 <= value t < Z.of_nat (List.length (getDataList chart)).

(** ** Axis sizing as the style configuration describes it *)

Definition term (show : bool) (size : Z) : Z := if show then size else 0.

(** Axis-line size, plus tick-line length, plus tick-text margins and text
    size, each when its show flag is set. *)
Definition bandTerms (x : XAxisStyle) : Z :=
  term (axisLine_show (axisLine x)) (axisLine_size (axisLine x)) +
  term (tickLine_show (tickLine x)) (tickLine_length (tickLine x)) +
  term (tickText_show (tickText x))
       (tickText_marginStart (tickText x) + tickText_marginEnd (tickText x) +
        tickText_size (tickText x)).

(** The band height: the terms count only on an axis that is shown. *)
Definition axisBandHeight (x : XAxisStyle) : Z :=
  term (xAxis_show x) (bandTerms x).

(** Top and bottom padding, plus twice the border size, plus the text
    size, when the crosshair, its vertical line and its text are shown. *)
Definition crosshairLabelHeight (c : CrosshairStyle) : Z :=
  let t := vertical_text (vertical c) in
  term (crosshair_show c && vertical_show (vertical c) && ctext_show t)
       (paddingTop t + paddingBottom t + 2 * borderSize t + ctext_size t).

(** ** A concrete chart: seven daily bars, 2024-01-28 to 2024-02-03 (UTC) *)

Module Example.

Definition jan28 : Z := 1706400000000.

Definition bars : list KLineData :=
  map (fun k => {| timestamp := jan28 + k * Js.Utc.msPerDay;
                   week := if k =? 0 then 4 else 5 |})
      (zseq 0 7).

Definition styles (size : AxisSize) : Styles := {|
  xAxis := {| xAxis_show := true;
              xAxis_size := size;
              axisLine := {| axisLine_show := true; axisLine_size := 1 |};
              tickLine := {| tickLine_show := true; tickLine_length := 3 |};
              tickText := {| tickText_show := true;
                             tickText_marginStart := 4;
                             tickText_marginEnd := 4;
                             tickText_size := 12;
                             tickText_weight := "normal";
                             tickText_family := "Helvetica Neue" |} |};
  crosshair := {| crosshair_show := true;
                  vertical := {| vertical_show := true;
                                 vertical_text := {| ctext_show := true;
                                                     paddingTop := 6;
                                                     paddingBottom := 6;
                                                     borderSize := 1;
                                                     ctext_size := 16 |} |} |}
|}.

(** Two daily bars a year apart: 2023-01-15 and 2024-01-15. *)
Definition yearApart : list KLineData :=
  [ {| timestamp := 1673740800000; week := 2 |};
    {| timestamp := 1705276800000; week := 3 |} ].

(** A text measure of two pixels per character at size 12. *)
Definition measure (text : string) (size : Z) (weight family : string) : Q :=
  (inject_Z (Z.of_nat (String.length text) * size) / 6)%Q.

Definition panZoom (vfrom vto : Z) : SpecStore.PanZoom := {|
  SpecStore.visibleFrom := vfrom;
  SpecStore.visibleTo := vto;
  SpecStore.totalBarCount := 7;
  SpecStore.barSpace := 8;
  SpecStore.panOffset := 0
|}.

Definition chartOf (data : list KLineData) (size : AxisSize)
    (interval : option string) (vfrom vto : Z) : Chart := {|
  date := Js.Utc.date;
  getTimeScaleStore := SpecStore.store (panZoom vfrom vto);
  getDataList := data;
  getStyles := styles size;
  formatDate := Js.Utc.formatDate;
  calcTextWidth := measure;
  api_interval := interval
|}.

(** All seven bars visible. *)
Definition chart (interval : string) : Chart :=
  chartOf bars Auto (Some interval) 0 7.

(** Only the first bar visible. *)
Definition oneBar (interval : string) : Chart :=
  chartOf bars Auto (Some interval) 0 1.

(** One candidate tick per bar, as the default tick pass hands them in. *)
Definition candidates : list AxisTick :=
  map (fun i => {| text := Js.numberToString i;
                   coord := SpecStore.dataIndexToPixel (panZoom 0 7) i;
                   value := i |})
      (zseq 0 7).

Definition msPerHour : Z := 3600000.

(** Six hourly bars over three days (UTC): 2024-01-31 22:00 and 23:00,
    2024-02-01 00:00 and 23:00, 2024-02-02 00:00 and 01:00. *)
Definition hourly : list KLineData :=
  map (fun h => {| timestamp := 1706738400000 + h * msPerHour; week := 5 |})
      [0; 1; 2; 25; 26; 27].

Definition hourlyChart (interval : string) : Chart :=
  chartOf hourly Auto (Some interval) 0 6.

(** Two hourly bars a month apart: 2024-01-15 10:00 and 2024-02-15 10:00. *)
Definition monthApart : list KLineData :=
  [ {| timestamp := 1705312800000; week := 3 |};
    {| timestamp := 1707991200000; week := 7 |} ].

End Example.

(** ** Price rounding and area paths (utils) *)

Module Utils.

(** [Math.round]: the nearest integer, a tie going up.  Prices are taken
    as exact rationals: the quotient and the product of [roundPrice] are
    exact here, where the code rounds each of them to a double. *)
Definition mathRound (x : Q) : Z := Qfloor (x + (1 # 2)).

Definition getFraction (price : Q) : Z :=
  if Qlt_le_dec price 200 then 1
  else if Qlt_le_dec price 500 then 2
  else if Qlt_le_dec price 2000 then 5
  else if Qlt_le_dec price 5000 then 10
  else 25.

Definition roundPrice (price : Q) : Z :=
  if Qlt_le_dec price 200 then mathRound price
  else
    let fraction := getFraction price in
    mathRound (price / inject_Z fraction) * fraction.

(** A [Path2D] as the calls made on it.  The [y] of a [lineTo] that was
    read past the end of an array is [undefined]. *)
Inductive PathCmd : Type :=
| MoveTo (x y : Z)
| LineTo (x : Z) (y : option Z)
| RectCmd (x y width height : Z).

Definition Path2D : Type := list PathCmd.

(** The calls made on a canvas context, in order. *)
Inductive CanvasOp : Type :=
| Save
| Restore
| FillStyle (color : string)
| StrokeStyle (color : string)
| LineWidth (width : Z)
| LineJoin (join : string)
| Clip (p : Path2D)
| Fill (p : Path2D)
| Stroke (p : Path2D).

(** The turns [i], [i + 1], ... of
    [for (let i = 0, n = xs.length; i < n; ++i) p.lineTo(xs[i], ys[i])]
    over the rest of [xs]. *)
Fixpoint areaLines (i : Z) (xs ys : list Z) : list PathCmd :=
  match xs with
  | [] => []
  | x :: xs' => LineTo x (Js.index ys i) :: areaLines (i + 1) xs' ys
  end.

Definition createAreaPath (xs ys : list Z) (width y : Z) : Path2D :=
  (MoveTo 0 y :: areaLines 0 xs ys ++ [LineTo width (Some y)])%list.

(** The calls [fillPathBetween] makes on [ctx], whose canvas is
    [canvasHeight] high. *)
Definition fillPathBetween (canvasHeight : Z) (xs y1 y2 : list Z) (color : string)
    : list CanvasOp :=
  match xs with
  | [] => []
  | _ :: _ =>
    let lastX := last xs 0 in
    [ Save;
      FillStyle color;
      Clip (createAreaPath xs y1 lastX canvasHeight);
      Fill (createAreaPath xs y2 lastX 0);
      Restore ]
  end.

(** No [lineTo] of the path got an [undefined] coordinate. *)
Definition definedPath (p : Path2D) : Prop :=
  Forall (fun cmd => match cmd with LineTo _ None => False | _ => True end) p.

(** Every path handed to the context is a defined one. *)
Definition definedOps (ops : list CanvasOp) : Prop :=
  Forall (fun op => match op with
                    | Clip p | Fill p | Stroke p => definedPath p
                    | _ => True
                    end) ops.

End Utils.

(** ** The candle bar view *)

Module CandleBarView.

Import Utils.

Inductive CandleType : Type :=
| CandleSolid
| CandleStroke
| CandleUpStroke
| CandleDownStroke
| Ohlc
| Area
| PnF
| Hlc
| Hlc2
| Line
| Line3
| Shade3.

Record CandleBarColor : Type := {
  upColor : string;
  downColor : string;
  noChangeColor : string;
  upBorderColor : string;
  downBorderColor : string;
  noChangeBorderColor : string;
  upWickColor : string;
  downWickColor : string;
  noChangeWickColor : string
}.

(** The fields of a bar that the view reads: the four prices, as exact
    rationals, and the colour mark [c]. *)
Record Candle : Type := {
  open : Q;
  high : Q;
  low : Q;
  close : Q;
  c : option string
}.

(** An entry of the visible data list: the bar, if there is one at that
    position, and its pixel [x]. *)
Record VisibleData : Type := {
  vd_data : option Candle;
  vd_x : Z
}.

Inductive PolygonType : Type :=
| StrokeFill
| PolygonStroke.

Record RectAttrs : Type := {
  rect_x : Z;
  rect_y : Z;
  rect_width : Z;
  rect_height : Z
}.

Record RectStyle : Type := {
  rs_style : option PolygonType;
  rs_color : option string;
  rs_borderColor : option string
}.

(** A figure to create; [attrs] holds one rectangle or several. *)
Record FigureCreate : Type := {
  fig_name : string;
  fig_attrs : list RectAttrs;
  fig_styles : RectStyle
}.

(** [array.sort((a, b) => a - b)]: the numbers in ascending order. *)
Fixpoint insertNumber (a : Z) (l : list Z) : list Z :=
  match l with
  | [] => [a]
  | b :: l' => if a <=? b then a :: l else b :: insertNumber a l'
  end.

Fixpoint sortNumbers (l : list Z) : list Z :=
  match l with
  | [] => []
  | a :: l' => insertNumber a (sortNumbers l')
  end.

(** [ohlcSize] and [halfOhlcSize] as [drawImp] computes them before it
    looks at the bars. *)
Definition ohlcSizes (type : CandleType) (gapBar : Z) : Z * Z :=
  let ohlcSize := 0 in
  let halfOhlcSize := 0 in
  match type with
  | Ohlc =>
    let ohlcSize := Z.min (Z.max (mathRound (inject_Z gapBar * (2 # 10))) 1) 8 in
    let ohlcSize :=
      if (2 <? ohlcSize) && (Z.rem ohlcSize 2 =? 1) then ohlcSize - 1 else ohlcSize in
    let halfOhlcSize := halfOhlcSize / 2 in
    (ohlcSize, halfOhlcSize)
  | _ => (ohlcSize, halfOhlcSize)
  end.

Section View.

(** [yAxis.convertToPixel] *)
Variable yAxis : Q -> Z.
Variable barSpace : BarSpace.
Variable styles : CandleBarColor.

(** [priceY[k]] and [colors[k]]; the callers pass four pixel values and
    three colours. *)
Definition priceAt (priceY : list Z) (k : nat) : Z := nth k priceY 0.
Definition colorAt (colors : list string) (k : nat) : string := nth k colors "".

Definition _createSolidBar (x : Z) (priceY : list Z) (colors : list string)
    : list FigureCreate :=
  [ {| fig_name := "rect";
       fig_attrs := [ {| rect_x := x;
                         rect_y := priceAt priceY 0;
                         rect_width := 1;
                         rect_height := priceAt priceY 3 - priceAt priceY 0 |} ];
       fig_styles := {| rs_style := None;
                        rs_color := Some (colorAt colors 2);
                        rs_borderColor := None |} |};
    {| fig_name := "rect";
       fig_attrs := [ {| rect_x := x - halfGapBar barSpace;
                         rect_y := priceAt priceY 1;
                         rect_width := gapBar barSpace;
                         rect_height := Z.max 1 (priceAt priceY 2 - priceAt priceY 1) |} ];
       fig_styles := {| rs_style := Some StrokeFill;
                        rs_color := Some (colorAt colors 0);
                        rs_borderColor := Some (colorAt colors 1) |} |} ].

Definition _createStrokeBar (x : Z) (priceY : list Z) (colors : list string)
    : list FigureCreate :=
  [ {| fig_name := "rect";
       fig_attrs := [ {| rect_x := x;
                         rect_y := priceAt priceY 0;
                         rect_width := 1;
                         rect_height := priceAt priceY 1 - priceAt priceY 0 |};
                      {| rect_x := x;
                         rect_y := priceAt priceY 2;
                         rect_width := 1;
                         rect_height := priceAt priceY 3 - priceAt priceY 2 |} ];
       fig_styles := {| rs_style := None;
                        rs_color := Some (colorAt colors 2);
                        rs_borderColor := None |} |};
    {| fig_name := "rect";
       fig_attrs := [ {| rect_x := x - halfGapBar barSpace;
                         rect_y := priceAt priceY 1;
                         rect_width := gapBar barSpace;
                         rect_height := Z.max 1 (priceAt priceY 2 - priceAt priceY 1) |} ];
       fig_styles := {| rs_style := Some PolygonStroke;
                        rs_color := None;
                        rs_borderColor := Some (colorAt colors 1) |} |} ].

(** [close > open] and [close < open] on prices. *)
Definition rises (kLineData : Candle) : bool :=
  if Qlt_le_dec (open kLineData) (close kLineData) then true else false.

Definition falls (kLineData : Candle) : bool :=
  if Qlt_le_dec (close kLineData) (open kLineData) then true else false.

(** The rectangles of one bar: the callback that [drawImp] hands to
    [eachChildren], up to the figures it creates. *)
Definition barRects (type : CandleType) (ohlcSize halfOhlcSize : Z)
    (kLineData : Candle) (x : Z) : list FigureCreate :=
  let colors :=
    if rises kLineData then
      [upColor styles; upBorderColor styles; upWickColor styles]
    else if falls kLineData then
      [downColor styles; downBorderColor styles; downWickColor styles]
    else
      [noChangeColor styles; noChangeBorderColor styles; noChangeWickColor styles] in
  let openY := yAxis (open kLineData) in
  let closeY := yAxis (close kLineData) in
  let priceY :=
    sortNumbers [openY; closeY; yAxis (high kLineData); yAxis (low kLineData)] in
  match type with
  | CandleSolid => _createSolidBar x priceY colors
  | CandleStroke => _createStrokeBar x priceY colors
  | CandleUpStroke =>
    if rises kLineData
    then _createStrokeBar x priceY colors
    else _createSolidBar x priceY colors
  | CandleDownStroke =>
    if falls kLineData
    then _createStrokeBar x priceY colors
    else _createSolidBar x priceY colors
  | Ohlc =>
    [ {| fig_name := "rect";
         fig_attrs :=
           [ {| rect_x := x - halfOhlcSize;
                rect_y := priceAt priceY 0;
                rect_width := ohlcSize;
                rect_height := priceAt priceY 3 - priceAt priceY 0 |};
             {| rect_x := x - halfGapBar barSpace;
                rect_y := if priceAt priceY 3 <? openY + ohlcSize
                          then priceAt priceY 3 - ohlcSize
                          else openY;
                rect_width := halfGapBar barSpace;
                rect_height := ohlcSize |};
             {| rect_x := x + halfOhlcSize;
                rect_y := if priceAt priceY 3 <? closeY + ohlcSize
                          then priceAt priceY 3 - ohlcSize
                          else closeY;
                rect_width := halfGapBar barSpace - halfOhlcSize;
                rect_height := ohlcSize |} ];
         fig_styles := {| rs_style := None;
                          rs_color := Some (colorAt colors 0);
                          rs_borderColor := None |} |} ]
  | _ => []
  end.

(** The [switch] at the head of [drawImp] hands these types to a path
    routine and returns; the others go on to [eachChildren]. *)
Definition drawnByPaths (type : CandleType) : bool :=
  match type with
  | CandleSolid | PnF | Hlc | Hlc2 | Line | Line3 | Shade3 => true
  | _ => false
  end.

(** The rectangles [drawImp] creates through [eachChildren] for an entry
    of the visible data list, with the sizes it computed from the bar
    space. *)
Definition drawnRects (type : CandleType) (item : VisibleData) : list FigureCreate :=
  if drawnByPaths type then []
  else
    match vd_data item with
    | Some kLineData =>
      barRects type (fst (ohlcSizes type (gapBar barSpace)))
               (snd (ohlcSizes type (gapBar barSpace))) kLineData (vd_x item)
    | None => []
    end.

(** *** [_drawOhlc] *)

Inductive PathName : Type :=
| UpRect
| UpWickTop
| UpWickBot
| DownRect
| DownWickTop
| DownWickBot
| NoChangeRect
| NoChangeWick.

Inductive GroupName : Type :=
| Default
| Green
| Red.

(** [groups]: three objects of eight paths each. *)
Definition Groups : Type := GroupName -> PathName -> Path2D.

Definition createGroups : Groups := fun _ _ => [].

Definition samePath (a b : PathName) : bool :=
  match a, b with
  | UpRect, UpRect | UpWickTop, UpWickTop | UpWickBot, UpWickBot
  | DownRect, DownRect | DownWickTop, DownWickTop | DownWickBot, DownWickBot
  | NoChangeRect, NoChangeRect | NoChangeWick, NoChangeWick => true
  | _, _ => false
  end.

Definition sameGroup (a b : GroupName) : bool :=
  match a, b with
  | Default, Default | Green, Green | Red, Red => true
  | _, _ => false
  end.

(** The calls [cmds] made on the path [g.name]. *)
Definition addTo (g : GroupName) (name : PathName) (cmds : list PathCmd)
    (groups : Groups) : Groups :=
  fun g' name' =>
    if sameGroup g g' && samePath name name'
    then (groups g' name' ++ cmds)%list
    else groups g' name'.

Definition minBarHeight : Z := Z.max (gapBar barSpace / 5) 2.

(** One turn of [for (const item of visibleDataList)]; the state is
    [(prevColor, groups)]. *)
Definition ohlcItem (st : option string * Groups) (item : VisibleData)
    : option string * Groups :=
  let '(prevColor, groups) := st in
  match vd_data item with
  | None => st
  | Some data =>
    let x := vd_x item in
    let openY := yAxis (open data) in
    let highY := yAxis (high data) in
    let lowY := yAxis (low data) in
    let closeY := yAxis (close data) in
    let g := Default in
    let prevColor := c data in
    let groups :=
      if rises data then
        let barHeight := Z.max (openY - closeY) minBarHeight in
        let groups :=
          addTo g UpRect [RectCmd (x - halfGapBar barSpace) closeY (gapBar barSpace) barHeight]
                groups in
        let groups :=
          if highY <? closeY
          then addTo g UpWickTop [MoveTo x highY; LineTo x (Some closeY)] groups
          else groups in
        if openY <? lowY
        then addTo g UpWickBot [MoveTo x openY; LineTo x (Some lowY)] groups
        else groups
      else if falls data then
        let barHeight := Z.max (closeY - openY) minBarHeight in
        let groups :=
          addTo g DownRect [RectCmd (x - halfGapBar barSpace) openY (gapBar barSpace) barHeight]
                groups in
        let groups :=
          if highY <? openY
          then addTo g DownWickTop [MoveTo x highY; LineTo x (Some openY)] groups
          else groups in
        if closeY <? lowY
        then addTo g DownWickBot [MoveTo x closeY; LineTo x (Some lowY)] groups
        else groups
      else
        let groups :=
          addTo g NoChangeRect
                [RectCmd (x - halfGapBar barSpace) closeY (gapBar barSpace) minBarHeight]
                groups in
        if negb (highY =? lowY)
        then addTo g NoChangeWick [MoveTo x lowY; LineTo x (Some highY)] groups
        else groups in
    (prevColor, groups)
  end.

(** The paths after the loop over the visible data list. *)
Definition ohlcGroups (visibleDataList : list VisibleData) : Groups :=
  snd (fold_left ohlcItem visibleDataList (None, createGroups)).

Definition paintGroup (g : PathName -> Path2D) (upColor downColor : string)
    : list CanvasOp :=
  [ LineWidth (Z.max (gapBar barSpace / 5) 1);
    FillStyle upColor;
    Fill (g UpRect);
    StrokeStyle (upBorderColor styles);
    Stroke (g UpWickTop);
    Stroke (g UpWickBot);
    FillStyle downColor;
    Fill (g DownRect);
    StrokeStyle (downWickColor styles);
    Stroke (g DownWickTop);
    Stroke (g DownWickBot);
    FillStyle (noChangeColor styles);
    Fill (g NoChangeRect);
    StrokeStyle (noChangeWickColor styles);
    Stroke (g NoChangeWick) ].

(** The calls [_drawOhlc] makes on the canvas context. *)
Definition _drawOhlc (visibleDataList : list VisibleData) : list CanvasOp :=
  let groups := ohlcGroups visibleDataList in
  (paintGroup (groups Default) (CandleBarView.upColor styles) (CandleBarView.downColor styles) ++
   paintGroup (groups Green) "#00C843" "#F07427" ++
   paintGroup (groups Red) "#FF9F9F" "#DE1E1E")%list.

(** *** [_drawShade3] *)

(** One turn of the loop of [_drawShade3]; the state is
    [(_xs, _close, _high, _low)]. *)
Definition shadeItem (st : list Z * list Z * list Z * list Z) (item : VisibleData)
    : list Z * list Z * list Z * list Z :=
  let '(_xs, _close, _high, _low) := st in
  match vd_data item with
  | None => st
  | Some data =>
    ((_xs ++ [vd_x item])%list,
     (_close ++ [yAxis (close data)])%list,
     (_high ++ [yAxis (high data)])%list,
     (_low ++ [yAxis (low data)])%list)
  end.

(** The calls [_drawShade3] makes on a context whose canvas is
    [canvasHeight] high. *)
Definition _drawShade3 (canvasHeight : Z) (visibleDataList : list VisibleData)
    : list CanvasOp :=
  let '(_xs, _close, _high, _low) := fold_left shadeItem visibleDataList ([], [], [], []) in
  (fillPathBetween canvasHeight _xs _high _close "#EB4C42" ++
   fillPathBetween canvasHeight _xs _close _low "#50C878")%list.

(** *** Readings of the figures and paths *)

(** The smallest and the largest pixel among the four prices of a bar:
    the top and the bottom of its span on screen. *)
Definition spanTop (k : Candle) : Z :=
  Z.min (Z.min (yAxis (open k)) (yAxis (close k)))
        (Z.min (yAxis (high k)) (yAxis (low k))).

Definition spanBottom (k : Candle) : Z :=
  Z.max (Z.max (yAxis (open k)) (yAxis (close k)))
        (Z.max (yAxis (high k)) (yAxis (low k))).


Definition hasData (item : VisibleData) : bool :=
  match vd_data item with
  | Some _ => true
  | None => false
  end.

(** Every call on the path is a [rect] of the bar width and at least
    [h] high. *)
Definition bodiesAtLeast (h : Z) (p : Path2D) : Prop :=
  Forall (fun cmd => match cmd with
                     | RectCmd _ _ width height => width = gapBar barSpace /\ h <= height
                     | _ => False
                     end) p.

(** The path is a sequence of vertical strokes, each a [moveTo] followed
    by a [lineTo] at the same [x] and a different [y]; with [down], the
    [lineTo] is the lower end on screen. *)
Fixpoint verticalStrokes (down : bool) (p : Path2D) : Prop :=
  match p with
  | [] => True
  | MoveTo x1 y1 :: LineTo x2 (Some y2) :: rest =>
    x1 = x2 /\ (if down then y1 < y2 else y1 <> y2) /\ verticalStrokes down rest
  | _ => False
  end.

End View.

(** Sample bars: a rising, a gap in the list, a falling and a flat bar. *)
Definition sampleList : list VisibleData :=
  [ {| vd_data := Some {| open := 10; high := 14; low := 9; close := 13; c := None |};
       vd_x := 4 |};
    {| vd_data := None; vd_x := 12 |};
    {| vd_data := Some {| open := 13; high := 13; low := 8; close := 9; c := Some "r" |};
       vd_x := 20 |};
    {| vd_data := Some {| open := 9; high := 11; low := 9; close := 9; c := None |};
       vd_x := 28 |} ].

(** A y axis of ten pixels per unit of price, growing downward from 200. *)
Definition sampleAxis (price : Q) : Z := 200 - Qfloor (price * 10).

Definition sampleSpace : BarSpace := {| gapBar := 6; halfGapBar := 3; halfBar := 4 |}.

Definition sampleColors : CandleBarColor := {|
  upColor := "#2DC08E"; downColor := "#F92855"; noChangeColor := "#888888";
  upBorderColor := "#2DC08E"; downBorderColor := "#F92855"; noChangeBorderColor := "#888888";
  upWickColor := "#2DC08E"; downWickColor := "#F92855"; noChangeWickColor := "#888888"
|}.

(** The rising bar of the sample list. *)
Definition sampleRising : Candle :=
  {| open := 10; high := 14; low := 9; close := 13; c := None |}.

End CandleBarView.

(** * Properties *)

(** ** The visible range *)

(** C8, as the code has it: [calcRange] hands back [from] and [realFrom]
    equal to the store's [from], both [to] and [realTo] equal to the
    store's [to] minus one (the last visible bar), and [range] and
    [realRange] equal to the store's [to - from]. *)
Theorem calcRange_fields (chart : Chart) :
  let vr := getVisibleRange (getTimeScaleStore chart) in
  let r := calcRange chart in
  from r = vr_from vr /\ realFrom r = vr_from vr /\
  to r = vr_to vr - 1 /\ realTo r = vr_to vr - 1 /\
  range r = vr_to vr - vr_from vr /\ realRange r = vr_to vr - vr_from vr.
Proof. cbv zeta. unfold calcRange. cbn. repeat split. Qed.

(** C8 as stated fails: for the store range [{from: 0, to: 7}] the [to]
    field of the result is 6, not the store's exclusive bound 7. *)
Lemma calcRange_to_is_not_store_to :
  let chart := Example.chart "1d" in
  let vr := getVisibleRange (getTimeScaleStore chart) in
  vr_to vr = 7 /\ to (calcRange chart) = 6 /\
  ~ (from (calcRange chart) = vr_from vr /\
     to (calcRange chart) = vr_to vr /\
     range (calcRange chart) = vr_to vr - vr_from vr /\
     realFrom (calcRange chart) = vr_from vr /\
     realTo (calcRange chart) = vr_to vr - 1).
Proof.
  cbv zeta. split; [reflexivity|]. split; [reflexivity|].
  intros (_ & Hto & _). vm_compute in Hto. discriminate Hto.
Qed.

(** ** Axis sizing *)

Lemma xAxisHeightOf_band (x : XAxisStyle) : xAxisHeightOf x = axisBandHeight x.
Proof.
  unfold xAxisHeightOf, axisBandHeight, bandTerms, term.
  destruct (xAxis_show x), (axisLine_show (axisLine x)),
    (tickLine_show (tickLine x)), (tickText_show (tickText x)); lia.
Qed.

Lemma crosshairHeight_label (c : CrosshairStyle) :
  crosshairVerticalTextHeightOf c = crosshairLabelHeight c.
Proof.
  unfold crosshairVerticalTextHeightOf, crosshairLabelHeight, term.
  destruct (crosshair_show c && vertical_show (vertical c) &&
            ctext_show (vertical_text (vertical c))); lia.
Qed.

(** C9, as the code has it: with the axis size set to ['auto'],
    [getAutoSize] is the larger of the axis-band height (the terms of the
    claim, counted only when the axis itself is shown) and the crosshair
    label height, so it is at least the label height; with an explicit
    axis size it is that size, whatever the two heights are. *)
Theorem getAutoSize_cases (chart : Chart) :
  let x := xAxis (getStyles chart) in
  let c := crosshair (getStyles chart) in
  getAutoSize chart =
    match xAxis_size x with
    | Px height => height
    | Auto => Z.max (axisBandHeight x) (crosshairLabelHeight c)
    end /\
  match xAxis_size x with
  | Px _ => True
  | Auto => crosshairLabelHeight c <= getAutoSize chart
  end.
Proof.
  cbv zeta. unfold getAutoSize.
  rewrite xAxisHeightOf_band, crosshairHeight_label.
  destruct (xAxis_size (xAxis (getStyles chart))); split; auto; lia.
Qed.

(** C9 as stated fails: with an explicit axis size of 20 the result is 20,
    although the band needs 24 and the crosshair label 30. *)
Lemma getAutoSize_explicit_size_clips :
  let chart := Example.chartOf Example.bars (Px 20) (Some "1d") 0 7 in
  let x := xAxis (getStyles chart) in
  let c := crosshair (getStyles chart) in
  bandTerms x = 24 /\ crosshairLabelHeight c = 30 /\
  getAutoSize chart = 20 /\
  getAutoSize chart <> Z.max (bandTerms x) (crosshairLabelHeight c).
Proof.
  cbv zeta. repeat split; try reflexivity. vm_compute. discriminate.
Qed.

(** ** The early return of [optimalTicks] *)

(** C4: [optimalTicks] returns what [_optimalTicks] returns; the
    statements after the first [return] have no part in the result, whatever
    they compute. *)
Theorem optimalTicks_is_live_pass (chart : Chart) (ticks : list AxisTick) :
  optimalTicks chart ticks = _optimalTicks chart ticks /\
  forall rest : result (list AxisTick),
    then_ (Return (_optimalTicks chart ticks)) rest = optimalTicks chart ticks.
Proof. split; [reflexivity | intros rest; reflexivity]. Qed.

(** ** The pixel conversions over the modelled store *)

Section RoundTrip.

Variable pz : SpecStore.PanZoom.
Variable chart : Chart.
Hypothesis chart_store : getTimeScaleStore chart = SpecStore.store pz.
Hypothesis pz_ok : SpecStore.wellFormed pz.

Lemma convertToPixel_model (i : Z) :
  convertToPixel chart i = SpecStore.dataIndexToPixel pz i.
Proof. unfold convertToPixel. rewrite chart_store. reflexivity. Qed.

Lemma convertFromPixel_model (x : Z) :
  convertFromPixel chart x = SpecStore.pixelToDataIndex pz x.
Proof. unfold convertFromPixel. rewrite chart_store. reflexivity. Qed.

(** The cell of a pixel: the index found, before the domain test. *)
Lemma cell_of_pixel (i x : Z) :
  SpecStore.dataIndexToPixel pz i - SpecStore.barSpace pz <= x
    <= SpecStore.dataIndexToPixel pz i + SpecStore.barSpace pz ->
  i - 1 <= (x - SpecStore.panOffset pz) / SpecStore.barSpace pz <= i + 1.
Proof.
  destruct pz_ok as (Hb & _). unfold SpecStore.dataIndexToPixel.
  set (b := SpecStore.barSpace pz) in *. set (o := SpecStore.panOffset pz).
  intros Hx.
  assert (Hh : 0 <= b / 2 < b)
    by (split; [apply Z.div_pos; lia | apply Z.div_lt_upper_bound; lia]).
  split.
  - apply Z.div_le_lower_bound; lia.
  - assert ((x - o) / b < i + 2); [|lia].
    apply Z.div_lt_upper_bound; lia.
Qed.

Lemma pixel_monotonic (i j : Z) :
  i < j -> convertToPixel chart i < convertToPixel chart j.
Proof.
  destruct pz_ok as (Hb & _). rewrite !convertToPixel_model.
  unfold SpecStore.dataIndexToPixel. nia.
Qed.

End RoundTrip.

(** C1: over the modelled store, for every data index [i] of the visible
    range, [convertFromPixel (convertToPixel i)] is [i]; and a pixel that is
    at most one bar-space unit away from [convertToPixel i] converts back to
    an index at most one away from [i]. *)
Theorem convert_round_trip (pz : SpecStore.PanZoom) (chart : Chart) (i : Z) :
  getTimeScaleStore chart = SpecStore.store pz ->
  SpecStore.wellFormed pz ->
  realFrom (calcRange chart) <= i <= realTo (calcRange chart) ->
  convertFromPixel chart (convertToPixel chart i) = Some i /\
  forall x j : Z,
    Z.abs (x - convertToPixel chart i) <= SpecStore.barSpace pz ->
    convertFromPixel chart x = Some j ->
    Z.abs (j - i) <= 1.
Proof.
  intros Hstore Hwf Hi.
  assert (Hrange : SpecStore.visibleFrom pz <= i < SpecStore.visibleTo pz).
  { unfold calcRange in Hi. rewrite Hstore in Hi. cbn in Hi. lia. }
  pose proof Hwf as (Hb & Hfrom & Hto).
  split.
  - rewrite (convertFromPixel_model pz chart Hstore),
      (convertToPixel_model pz chart Hstore).
    unfold SpecStore.pixelToDataIndex, SpecStore.dataIndexToPixel.
    replace (SpecStore.panOffset pz + i * SpecStore.barSpace pz +
             SpecStore.barSpace pz / 2 - SpecStore.panOffset pz)
      with (SpecStore.barSpace pz / 2 + i * SpecStore.barSpace pz) by lia.
    rewrite Z.div_add by lia.
    rewrite (Z.div_small (SpecStore.barSpace pz / 2))
      by (split; [apply Z.div_pos; lia | apply Z.div_lt_upper_bound; lia]).
    cbn [Z.add].
    replace ((0 <=? i) && (i <? SpecStore.totalBarCount pz)) with true; [reflexivity|].
    symmetry. apply andb_true_iff. split; [apply Z.leb_le | apply Z.ltb_lt]; lia.
  - intros x j Hx. rewrite (convertFromPixel_model pz chart Hstore).
    rewrite (convertToPixel_model pz chart Hstore) in Hx.
    unfold SpecStore.pixelToDataIndex.
    destruct ((0 <=? _) && (_ <? _)); [|discriminate].
    intros [= <-].
    pose proof (cell_of_pixel pz Hwf i x) as Hcell. lia.
Qed.

(** The round trip on the example chart, at bar 3 of the seven. *)
Lemma convert_round_trip_example :
  convertFromPixel (Example.chart "1d") (convertToPixel (Example.chart "1d") 3) = Some 3.
Proof.
  refine (proj1 (convert_round_trip (Example.panZoom 0 7) (Example.chart "1d") 3
                   eq_refl _ _)).
  - unfold SpecStore.wellFormed; cbn; lia.
  - cbn; lia.
Defined.

(** ** The tick loops in closed form *)

Lemma zseq_In (lo : Z) (n : nat) (j : Z) :
  In j (zseq lo n) <-> lo <= j < lo + Z.of_nat n.
Proof.
  revert lo. induction n as [|n IH]; intros lo; cbn [zseq In].
  - lia.
  - rewrite IH. lia.
Qed.

Lemma flat_map_eq_in {A B : Type} (f g : A -> list B) (l : list A) :
  (forall a, In a l -> f a = g a) -> flat_map f l = flat_map g l.
Proof.
  induction l as [|a l IH]; intros H; cbn; [reflexivity|].
  rewrite (H a) by (left; reflexivity).
  rewrite IH; [reflexivity|]. intros b Hb. apply H. right. exact Hb.
Qed.

Lemma flat_map_map_filter {A B : Type} (c : A -> bool) (m : A -> B) (l : list A) :
  flat_map (fun a => if c a then [m a] else []) l = map m (filter c l).
Proof.
  induction l as [|a l IH]; cbn; [reflexivity|].
  destruct (c a); cbn; rewrite IH; reflexivity.
Qed.

Section Scan.

Variable chart : Chart.

Lemma index_rowAt (i : Z) :
  0 <= i < Z.of_nat (List.length (getDataList chart)) ->
  Js.index (getDataList chart) i = Some (rowAt chart i).
Proof.
  intros Hi. unfold Js.index, rowAt.
  destruct (Z.ltb_spec i 0) as [Hneg|_]; [lia|].
  apply nth_error_nth'. lia.
Qed.

(** A loop body that reads bar [i], pushes [emit s i row] and goes on
    with the keys [next row]. *)
Variable St : Type.
Variable next : KLineData -> St.
Variable emit : St -> Z -> KLineData -> list AxisTick.
Variable body : Z -> St * list AxisTick -> result (St * list AxisTick).

Hypothesis body_scan : forall i s t,
  body i (s, t) =
  match Js.index (getDataList chart) i with
  | None => TypeError
  | Some row => Ok (next row, (t ++ emit s i row)%list)
  end.

Lemma for_loop_scan (n : nat) : forall (i : Z) (s : St) (t : list AxisTick),
  (forall j, i <= j < i + Z.of_nat n ->
             0 <= j < Z.of_nat (List.length (getDataList chart))) ->
  exists s',
    for_loop n i body (s, t) =
    Ok (s', (t ++ flat_map (fun j => emit (keysBefore chart next i s j) j (rowAt chart j))
                           (zseq i n))%list).
Proof.
  induction n as [|n IH]; intros i s t Hin.
  - exists s. cbn. rewrite app_nil_r. reflexivity.
  - cbn [for_loop zseq flat_map].
    rewrite body_scan, index_rowAt by (apply Hin; lia).
    cbn [bind].
    destruct (IH (i + 1) (next (rowAt chart i)) (t ++ emit s i (rowAt chart i))%list)
      as (s' & Hs'); [intros j Hj; apply Hin; lia |].
    exists s'. rewrite Hs'. f_equal. f_equal.
    rewrite <- app_assoc. f_equal.
    assert (Hfirst : keysBefore chart next i s i = s)
      by (unfold keysBefore; rewrite Z.eqb_refl; reflexivity).
    rewrite Hfirst. f_equal.
    apply flat_map_eq_in. intros j Hj. apply zseq_In in Hj.
    unfold keysBefore.
    destruct (Z.eqb_spec j (i + 1)) as [->|Hne].
    + replace (i + 1 - 1) with i by lia.
      destruct (Z.eqb_spec (i + 1) i); [lia | reflexivity].
    + destruct (Z.eqb_spec j i); [lia | reflexivity].
Qed.

(** The loop over the visible range, when each turn pushes one tick
    [mk j] or none, as [cond j] says. *)
Lemma for_range_scan (s0 : St) (cond : Z -> bool) (mk : Z -> AxisTick) :
  barsInRange chart ->
  (forall j, In j (visibleIndices chart) ->
     emit (keysBefore chart next (realFrom (getRange chart)) s0 j) j (rowAt chart j) =
     if cond j then [mk j] else []) ->
  exists s',
    for_range (realFrom (getRange chart)) (realTo (getRange chart)) body (s0, []) =
    Ok (s', map mk (filter cond (visibleIndices chart))).
Proof.
  intros (Hlo & Hhi) Hemit. unfold for_range.
  destruct (for_loop_scan
              (Z.to_nat (realTo (getRange chart) - realFrom (getRange chart) + 1))
              (realFrom (getRange chart)) s0 []) as (s' & Hs'); [intros j Hj; lia |].
  exists s'. rewrite Hs'. cbn [app]. f_equal. f_equal.
  rewrite <- flat_map_map_filter. apply flat_map_eq_in. exact Hemit.
Qed.

End Scan.

Section Classes.

Variable chart : Chart.
Hypothesis in_range : barsInRange chart.

Let lo := realFrom (getRange chart).
Let hi := realTo (getRange chart).

Ltac scan_body :=
  let i := fresh "i" in let t := fresh "t" in
  intros i [? ?] t; cbv beta iota zeta;
  destruct (Js.index (getDataList chart) i); [|reflexivity];
  unfold push; cbn [fst snd];
  destruct (Js.strictNe _ _); rewrite ?app_nil_r; reflexivity.

Ltac at_bar j Hj :=
  unfold keysBefore, opens, sameAsPrevious;
  fold lo; destruct (Z.eqb_spec j lo); cbn;
  unfold dayOf, monthOf, yearOf, weekOf, shortMonthOf; try reflexivity.

Lemma subHour_loop :
  exists s',
    for_range lo hi (subHourBody chart) (None, None, []) =
    Ok (s', map (subHourTick chart) (filter (opens chart (dayOf chart)) (visibleIndices chart))).
Proof.
  refine (for_range_scan chart (option Z * option Z)
            (fun row => (Some (Js.getMonth (date chart) (timestamp row)),
                         Some (Js.getDate (date chart) (timestamp row))))
            (fun s i row =>
               if Js.strictNe (Js.getDate (date chart) (timestamp row)) (snd s)
               then [{| text := if Js.strictEq (Js.getMonth (date chart) (timestamp row)) (fst s)
                                then Js.numberToString (Js.getDate (date chart) (timestamp row))
                                else Js.monthShort (date chart) (timestamp row) ++ " " ++
                                     Js.numberToString (Js.getDate (date chart) (timestamp row));
                        coord := convertToPixel chart i -
                                 halfBar (getBarSpace (getTimeScaleStore chart));
                        value := i |}]
               else [])
            (subHourBody chart) _ (None, None) _ _ in_range _).
  - unfold subHourBody. scan_body.
  - intros j Hj. unfold subHourTick. at_bar j Hj.
Qed.

Lemma twoThreeHour_loop :
  exists s',
    for_range lo hi (twoThreeHourBody chart) (None, None, []) =
    Ok (s', map (twoThreeHourTick chart)
                (filter (opens chart (weekOf chart)) (visibleIndices chart))).
Proof.
  refine (for_range_scan chart (option Z * option Z)
            (fun row => (Some (Js.getMonth (date chart) (timestamp row)),
                         Some (week row)))
            (fun s i row =>
               if Js.strictNe (week row) (snd s)
               then [{| text := if Js.strictEq (Js.getMonth (date chart) (timestamp row)) (fst s)
                                then Js.numberToString (Js.getDate (date chart) (timestamp row))
                                else Js.numberToString (Js.getDate (date chart) (timestamp row))
                                     ++ " " ++ Js.monthShort (date chart) (timestamp row);
                        coord := convertToPixel chart i;
                        value := i |}]
               else [])
            (twoThreeHourBody chart) _ (None, None) _ _ in_range _).
  - unfold twoThreeHourBody. scan_body.
  - intros j Hj. unfold twoThreeHourTick. at_bar j Hj.
Qed.

Lemma daily_loop :
  exists s',
    for_range lo hi (dailyBody chart) (None, None, []) =
    Ok (s', map (dailyTick chart)
                (filter (opens chart (monthOf chart)) (visibleIndices chart))).
Proof.
  refine (for_range_scan chart (option Z * option Z)
            (fun row => (Some (Js.getFullYear (date chart) (timestamp row)),
                         Some (Js.getMonth (date chart) (timestamp row))))
            (fun s i row =>
               if Js.strictNe (Js.getMonth (date chart) (timestamp row)) (snd s)
               then [{| text := if Js.strictEq (Js.getFullYear (date chart) (timestamp row)) (fst s)
                                then Js.monthShort (date chart) (timestamp row)
                                else Js.numberToString
                                       (Js.getFullYear (date chart) (timestamp row));
                        coord := convertToPixel chart i;
                        value := i |}]
               else [])
            (dailyBody chart) _ (None, None) _ _ in_range _).
  - unfold dailyBody. scan_body.
  - intros j Hj. unfold dailyTick. at_bar j Hj.
Qed.

Lemma weekMonth_loop :
  exists s',
    for_range lo hi (weekMonthBody chart) (None, []) =
    Ok (s', map (weekMonthTick chart)
                (filter (opens chart (yearOf chart)) (visibleIndices chart))).
Proof.
  refine (for_range_scan chart (option Z)
            (fun row => Some (Js.getFullYear (date chart) (timestamp row)))
            (fun s i row =>
               if Js.strictNe (Js.getFullYear (date chart) (timestamp row)) s
               then [{| text := Js.numberToString
                                  (Js.getFullYear (date chart) (timestamp row));
                        coord := convertToPixel chart i;
                        value := i |}]
               else [])
            (weekMonthBody chart) _ None _ _ in_range _).
  - unfold weekMonthBody. intros i s t. cbv beta iota zeta.
    destruct (Js.index (getDataList chart) i); [|reflexivity].
    unfold push. destruct (Js.strictNe _ _); rewrite ?app_nil_r; reflexivity.
  - intros j Hj. unfold weekMonthTick. at_bar j Hj.
Qed.

(** The live pass in closed form: it returns, and what it returns are
    the ticks of the bars that open a group. *)
Lemma _optimalTicks_closed (ticks : list AxisTick) :
  _optimalTicks chart ticks = Ok (groupTicks chart).
Proof.
  unfold _optimalTicks, groupTicks. fold lo hi.
  destruct (classify (interval chart)).
  - destruct subHour_loop as (s' & ->). reflexivity.
  - destruct twoThreeHour_loop as (s' & ->). reflexivity.
  - destruct daily_loop as (s' & ->). reflexivity.
  - destruct weekMonth_loop as (s' & ->). reflexivity.
  - reflexivity.
Qed.

End Classes.

(** ** Order of the emitted ticks *)

Lemma zseq_sorted (n : nat) : forall lo, StronglySorted Z.lt (zseq lo n).
Proof.
  induction n as [|n IH]; intros lo; cbn; constructor.
  - apply IH.
  - apply Forall_forall. intros j Hj. apply zseq_In in Hj. lia.
Qed.

Lemma filter_sorted {A : Type} (R : A -> A -> Prop) (c : A -> bool) (l : list A) :
  StronglySorted R l -> StronglySorted R (filter c l).
Proof.
  induction 1 as [|a l Hl IH Ha]; cbn; [constructor|].
  destruct (c a); [|exact IH].
  constructor; [exact IH|].
  apply Forall_forall. intros b Hb. apply filter_In in Hb.
  rewrite Forall_forall in Ha. apply Ha, Hb.
Qed.

Lemma map_sorted (f : Z -> Z) (l : list Z) :
  (forall a b, a < b -> f a < f b) ->
  StronglySorted Z.lt l -> StronglySorted Z.lt (map f l).
Proof.
  intros Hf. induction 1 as [|a l Hl IH Ha]; cbn; constructor; [exact IH|].
  apply Forall_forall. intros y Hy. apply in_map_iff in Hy as (b & <- & Hb).
  rewrite Forall_forall in Ha. apply Hf, Ha, Hb.
Qed.

Section Order.

Variable chart : Chart.

Lemma visibleIndices_sorted : StronglySorted Z.lt (visibleIndices chart).
Proof. apply zseq_sorted. Qed.

Lemma visibleIndices_first :
  realFrom (getRange chart) <= realTo (getRange chart) ->
  exists rest, visibleIndices chart = realFrom (getRange chart) :: rest.
Proof.
  intros H. unfold visibleIndices.
  destruct (Z.to_nat (realTo (getRange chart) - realFrom (getRange chart) + 1))
    as [|n] eqn:E; [lia|].
  eexists. reflexivity.
Qed.

Lemma opens_first (key : Z -> Z) : opens chart key (realFrom (getRange chart)) = true.
Proof. unfold opens. rewrite Z.eqb_refl. reflexivity. Qed.

(** The data indices and the coordinates of the ticks of each class. *)
Lemma groupTicks_value :
  map value (groupTicks chart) =
  match classify (interval chart) with
  | SubHourToHour => filter (opens chart (dayOf chart)) (visibleIndices chart)
  | TwoThreeHour => filter (opens chart (weekOf chart)) (visibleIndices chart)
  | Daily => filter (opens chart (monthOf chart)) (visibleIndices chart)
  | WeekMonth => filter (opens chart (yearOf chart)) (visibleIndices chart)
  | Unrecognized => []
  end.
Proof.
  unfold groupTicks. destruct (classify (interval chart));
    rewrite ?map_map; cbn [value subHourTick twoThreeHourTick dailyTick weekMonthTick];
    rewrite ?map_id; reflexivity.
Qed.

Lemma groupTicks_coord :
  map coord (groupTicks chart) =
  map (fun i => match classify (interval chart) with
                | SubHourToHour =>
                  convertToPixel chart i - halfBar (getBarSpace (getTimeScaleStore chart))
                | _ => convertToPixel chart i
                end)
      (map value (groupTicks chart)).
Proof.
  rewrite map_map. unfold groupTicks.
  destruct (classify (interval chart)); rewrite ?map_map; reflexivity.
Qed.

Lemma groupTicks_value_sorted : StronglySorted Z.lt (map value (groupTicks chart)).
Proof.
  rewrite groupTicks_value.
  destruct (classify (interval chart));
    try (apply filter_sorted, visibleIndices_sorted); constructor.
Qed.

Lemma groupTicks_first :
  classify (interval chart) <> Unrecognized ->
  realFrom (getRange chart) <= realTo (getRange chart) ->
  exists t rest,
    groupTicks chart = t :: rest /\ value t = realFrom (getRange chart).
Proof.
  intros Hclass Hne. destruct (visibleIndices_first Hne) as (rest & Hvis).
  unfold groupTicks. rewrite Hvis.
  destruct (classify (interval chart)); [| | | |congruence];
    cbn [filter]; rewrite opens_first; cbn [map]; eexists; eexists;
    (split; [reflexivity|reflexivity]).
Qed.

End Order.

(** C10: for a recognized interval class and a visible range
    [realFrom <= realTo] whose indices are bars of the data list, the live
    pass returns a tick list whose first tick is at index [realFrom] and
    whose [value] fields are strictly increasing data indices; under a
    strictly increasing [convertToPixel] the coordinates are strictly
    increasing too. *)
Theorem first_tick_at_realFrom_and_values_increase
    (chart : Chart) (ticks : list AxisTick) :
  classify (interval chart) <> Unrecognized ->
  barsInRange chart ->
  realFrom (getRange chart) <= realTo (getRange chart) ->
  exists t rest,
    _optimalTicks chart ticks = Ok (t :: rest) /\
    value t = realFrom (getRange chart) /\
    StronglySorted Z.lt (map value (t :: rest)) /\
    ((forall a b, a < b -> convertToPixel chart a < convertToPixel chart b) ->
     StronglySorted Z.lt (map coord (t :: rest))).
Proof.
  intros Hclass Hbars Hne.
  destruct (groupTicks_first chart Hclass Hne) as (t & rest & Hticks & Hval).
  exists t, rest. rewrite (_optimalTicks_closed chart Hbars ticks), <- Hticks.
  split; [reflexivity|]. split; [exact Hval|].
  split; [apply groupTicks_value_sorted|].
  intros Hmono. rewrite groupTicks_coord.
  apply map_sorted; [|apply groupTicks_value_sorted].
  intros a b Hab. specialize (Hmono a b Hab).
  destruct (classify (interval chart)); lia.
Qed.

(** The first tick of the seven daily bars is at bar 0. *)
Lemma first_tick_example :
  exists t rest,
    _optimalTicks (Example.chart "1d") [] = Ok (t :: rest) /\
    value t = 0 /\
    StronglySorted Z.lt (map value (t :: rest)) /\
    ((forall a b, a < b ->
        convertToPixel (Example.chart "1d") a < convertToPixel (Example.chart "1d") b) ->
     StronglySorted Z.lt (map coord (t :: rest))).
Proof.
  apply (first_tick_at_realFrom_and_values_increase (Example.chart "1d") []).
  - vm_compute. discriminate.
  - unfold barsInRange. cbn. lia.
  - cbn. lia.
Defined.

(** ** Empty data and degenerate ranges *)

Lemma for_range_degenerate {St : Type} (lo hi : Z)
    (body : Z -> St -> result St) (s : St) :
  hi < lo -> for_range lo hi body s = Ok s.
Proof.
  intros H. unfold for_range.
  replace (Z.to_nat (hi - lo + 1)) with O by lia. reflexivity.
Qed.

Lemma empty_data_degenerate (chart : Chart) :
  getDataList chart = [] -> rangeInvariant chart ->
  realTo (getRange chart) < realFrom (getRange chart).
Proof.
  unfold rangeInvariant, getRange, calcRange. cbn. intros ->. cbn. lia.
Qed.

(** C7: when the data list is empty (and the visible range respects the
    store's invariant [0 <= from <= to <= totalBarCount]), or when the range
    is degenerate ([realFrom > realTo]), the tick generator returns the
    empty sequence, whatever the interval: it does not throw. *)
Theorem no_bars_no_ticks (chart : Chart) (ticks : list AxisTick) :
  (getDataList chart = [] /\ rangeInvariant chart) \/
  realTo (getRange chart) < realFrom (getRange chart) ->
  _optimalTicks chart ticks = Ok [] /\ optimalTicks chart ticks = Ok [].
Proof.
  intros H.
  assert (Hdeg : realTo (getRange chart) < realFrom (getRange chart)).
  { destruct H as [(Hdata & Hinv)|Hdeg]; [|exact Hdeg].
    apply empty_data_degenerate; assumption. }
  assert (Hlive : _optimalTicks chart ticks = Ok []).
  { unfold _optimalTicks.
    destruct (classify (interval chart));
      rewrite ?for_range_degenerate by exact Hdeg; reflexivity. }
  split; [exact Hlive|]. unfold optimalTicks. cbn [then_]. exact Hlive.
Qed.

(** No bars at all: no ticks, for a two-hour chart. *)
Lemma no_bars_no_ticks_example :
  _optimalTicks (Example.chartOf [] Auto (Some "2h") 0 0) Example.candidates = Ok [] /\
  optimalTicks (Example.chartOf [] Auto (Some "2h") 0 0) Example.candidates = Ok [].
Proof.
  apply (no_bars_no_ticks (Example.chartOf [] Auto (Some "2h") 0 0) Example.candidates).
  left. split; [reflexivity|]. unfold rangeInvariant. cbn. lia.
Defined.

(** ** Daily charts: one tick per month *)

Section Chronological.

Variable chart : Chart.
Hypothesis chrono : chronologicalDaily chart.

Let lo := realFrom (getRange chart).
Let hi := realTo (getRange chart).

Lemma monthNotAfter_chain (n : nat) : forall j,
  lo <= j -> j + Z.of_nat n <= hi -> monthNotAfter chart j (j + Z.of_nat n).
Proof.
  induction n as [|n IH]; intros j Hlo Hhi.
  - replace (j + Z.of_nat 0) with j by lia. right. lia.
  - specialize (IH j Hlo ltac:(lia)).
    destruct (chrono (j + Z.of_nat (S n)) ltac:(fold lo hi; lia)) as (Hstep & _).
    replace (j + Z.of_nat (S n) - 1) with (j + Z.of_nat n) in Hstep by lia.
    unfold monthNotAfter in *. lia.
Qed.

Lemma monthNotAfter_range (j i : Z) :
  lo <= j -> j <= i -> i <= hi -> monthNotAfter chart j i.
Proof.
  intros Hlo Hji Hhi.
  replace i with (j + Z.of_nat (Z.to_nat (i - j))) by lia.
  apply monthNotAfter_chain; lia.
Qed.

(** On chronological bars, a bar opens a group of the month key exactly
    when no earlier visible bar lies in its calendar month. *)
Lemma opens_month_iff_first_of_calendar_month (i : Z) :
  lo <= i <= hi ->
  opens chart (monthOf chart) i = true <->
  (forall j, lo <= j < i -> ~ sameCalendarMonth chart j i).
Proof.
  intros Hi. unfold opens. fold lo. split.
  - intros Hopen j Hj (Hy & Hm).
    destruct (Z.eqb_spec i lo) as [->|Hne]; [lia|].
    cbn in Hopen. apply negb_true_iff, Z.eqb_neq in Hopen.
    pose proof (monthNotAfter_range j (i - 1) ltac:(lia) ltac:(lia) ltac:(lia)) as H1.
    destruct (chrono i ltac:(fold lo hi; lia)) as (H2 & _).
    unfold monthNotAfter in *. lia.
  - intros Hfirst. destruct (Z.eqb_spec i lo) as [|Hne]; [reflexivity|].
    cbn. apply negb_true_iff, Z.eqb_neq. intros Hm.
    apply (Hfirst (i - 1) ltac:(lia)). split; [|congruence].
    destruct (chrono i ltac:(fold lo hi; lia)) as (_ & Hyear).
    symmetry in Hm. apply Hyear. exact Hm.
Qed.

End Chronological.

(** C2, as the code has it: on a daily chart ('1d') the live pass returns
    exactly one tick for each visible bar that opens a month group (the
    first visible bar, and every bar whose month number differs from the
    month number of the bar before it); its text is the abbreviated month
    when the bar before it in the range has the same year and the
    four-digit year otherwise, its coordinate is the bar's own.  When the
    visible bars are in chronological order and no bar follows its
    neighbour in the same month of another year, these are the first
    visible bars of the calendar months.  The seven bars from January 28 to
    February 3 give two ticks: "2024" at the first bar and "Feb" at
    February 1. *)
Theorem daily_ticks_one_per_month :
  (forall (chart : Chart) (ticks : list AxisTick),
     interval chart = "1d" ->
     barsInRange chart ->
     _optimalTicks chart ticks =
       Ok (map (dailyTick chart)
               (filter (opens chart (monthOf chart)) (visibleIndices chart))) /\
     (chronologicalDaily chart ->
      forall i, realFrom (getRange chart) <= i <= realTo (getRange chart) ->
        opens chart (monthOf chart) i = true <->
        (forall j, realFrom (getRange chart) <= j < i ->
                   ~ sameCalendarMonth chart j i))) /\
  _optimalTicks (Example.chart "1d") [] =
    Ok [ {| text := "2024"; coord := convertToPixel (Example.chart "1d") 0; value := 0 |};
         {| text := "Feb"; coord := convertToPixel (Example.chart "1d") 4; value := 4 |} ].
Proof.
  split; [|reflexivity].
  intros chart ticks Hint Hbars. split.
  - rewrite (_optimalTicks_closed chart Hbars ticks).
    unfold groupTicks. rewrite Hint. reflexivity.
  - intros Hchrono i Hi.
    apply opens_month_iff_first_of_calendar_month; assumption.
Qed.

(** The daily ticks of the example through the closed form; its bar 4
    (February 1) is the first visible bar of its calendar month. *)
Lemma daily_ticks_example :
  _optimalTicks (Example.chart "1d") Example.candidates =
    Ok (map (dailyTick (Example.chart "1d"))
            (filter (opens (Example.chart "1d") (monthOf (Example.chart "1d")))
                    (visibleIndices (Example.chart "1d")))) /\
  (opens (Example.chart "1d") (monthOf (Example.chart "1d")) 4 = true <->
   (forall j, 0 <= j < 4 -> ~ sameCalendarMonth (Example.chart "1d") j 4)).
Proof.
  assert (Hbars : barsInRange (Example.chart "1d"))
    by (unfold barsInRange; cbn; lia).
  destruct (proj1 daily_ticks_one_per_month (Example.chart "1d")
              Example.candidates eq_refl Hbars) as (Hticks & Hfirst).
  split; [exact Hticks|].
  apply Hfirst; [|cbn; lia].
  intros j Hj. cbn in Hj.
  assert (Hcases : j = 1 \/ j = 2 \/ j = 3 \/ j = 4 \/ j = 5 \/ j = 6) by lia.
  unfold monthNotAfter.
  destruct Hcases as [-> | [-> | [-> | [-> | [-> | ->] ] ] ] ]; vm_compute;
    (split; [|intros H; first [reflexivity | discriminate H]]);
    first [right; split; [reflexivity | discriminate] | left; reflexivity].
Defined.

(** C2 as stated fails: of two daily bars in chronological order and a
    year apart, 2023-01-15 and 2024-01-15, the second is the first visible
    bar of its calendar month, January 2024, and gets no tick: the month
    number is the one of the bar before it. *)
Lemma daily_year_apart_skips_month :
  let chart := Example.chartOf Example.yearApart Auto (Some "1d") 0 2 in
  _optimalTicks chart [] = Ok [{| text := "2023"; coord := 4; value := 0 |}] /\
  timestamp (rowAt chart 0) < timestamp (rowAt chart 1) /\
  (yearOf chart 0 = 2023 /\ yearOf chart 1 = 2024) /\
  ~ (forall i, realFrom (getRange chart) <= i <= realTo (getRange chart) ->
       (forall j, realFrom (getRange chart) <= j < i -> ~ sameCalendarMonth chart j i) ->
       exists l t, _optimalTicks chart [] = Ok l /\ In t l /\ value t = i).
Proof.
  cbv zeta. split; [reflexivity|]. split; [reflexivity|].
  split; [split; reflexivity|].
  intros H. destruct (H 1) as (l & t & Hl & Hin & Hv).
  - cbn. lia.
  - intros j Hj. cbn in Hj. replace j with 0 by lia.
    intros (Hy & _). vm_compute in Hy. discriminate Hy.
  - vm_compute in Hl. injection Hl as <-.
    destruct Hin as [<-|[]]. discriminate Hv.
Qed.

(** ** Intraday charts: ticks between the days *)

Lemma classify_not_subHour (s : string) :
  isOneOf s ["5m"; "10m"; "15m"; "30m"; "1h"] = false -> classify s <> SubHourToHour.
Proof.
  intros H. unfold classify. rewrite H.
  destruct (isOneOf s ["2h"; "3h"]); [discriminate|].
  destruct (isOneOf s ["1d"]); [discriminate|].
  destruct (isOneOf s ["1w"; "1mo"]); discriminate.
Qed.

Lemma classify_subHour (s : string) :
  isOneOf s ["5m"; "10m"; "15m"; "30m"; "1h"] = true -> classify s = SubHourToHour.
Proof. intros H. unfold classify. rewrite H. reflexivity. Qed.

Section ChronologicalDays.

Variable chart : Chart.
Hypothesis chrono : chronologicalIntraday chart.

Let lo := realFrom (getRange chart).
Let hi := realTo (getRange chart).

Lemma dayNotAfter_chain (n : nat) : forall j,
  lo <= j -> j + Z.of_nat n <= hi -> dayNotAfter chart j (j + Z.of_nat n).
Proof.
  induction n as [|n IH]; intros j Hlo Hhi.
  - replace (j + Z.of_nat 0) with j by lia. right. split; [reflexivity|]. right. lia.
  - specialize (IH j Hlo ltac:(lia)).
    destruct (chrono (j + Z.of_nat (S n)) ltac:(fold lo hi; lia)) as (Hstep & _).
    replace (j + Z.of_nat (S n) - 1) with (j + Z.of_nat n) in Hstep by lia.
    unfold dayNotAfter in *. lia.
Qed.

Lemma dayNotAfter_range (j i : Z) :
  lo <= j -> j <= i -> i <= hi -> dayNotAfter chart j i.
Proof.
  intros Hlo Hji Hhi.
  replace i with (j + Z.of_nat (Z.to_nat (i - j))) by lia.
  apply dayNotAfter_chain; lia.
Qed.

(** On chronological bars, a bar opens a group of the day key exactly
    when no earlier visible bar lies on its calendar day. *)
Lemma opens_day_iff_first_of_calendar_day (i : Z) :
  lo <= i <= hi ->
  opens chart (dayOf chart) i = true <->
  (forall j, lo <= j < i -> ~ sameCalendarDay chart j i).
Proof.
  intros Hi. unfold opens. fold lo. split.
  - intros Hopen j Hj (Hy & Hm & Hd).
    destruct (Z.eqb_spec i lo) as [->|Hne]; [lia|].
    cbn in Hopen. apply negb_true_iff, Z.eqb_neq in Hopen.
    pose proof (dayNotAfter_range j (i - 1) ltac:(lia) ltac:(lia) ltac:(lia)) as H1.
    destruct (chrono i ltac:(fold lo hi; lia)) as (H2 & _).
    unfold dayNotAfter in *. lia.
  - intros Hfirst. destruct (Z.eqb_spec i lo) as [|Hne]; [reflexivity|].
    cbn. apply negb_true_iff, Z.eqb_neq. intros Hd.
    apply (Hfirst (i - 1) ltac:(lia)).
    destruct (chrono i ltac:(fold lo hi; lia)) as (_ & Hsame).
    symmetry in Hd. destruct (Hsame Hd) as (Hm & Hy).
    repeat split; assumption.
Qed.

End ChronologicalDays.

Lemma groupTicks_own_coord (chart : Chart) (t : AxisTick) :
  classify (interval chart) <> SubHourToHour ->
  In t (groupTicks chart) -> coord t = convertToPixel chart (value t).
Proof.
  unfold groupTicks. intros Hclass Ht.
  destruct (classify (interval chart)); [congruence| | | |destruct Ht];
    apply in_map_iff in Ht as (i & <- & _); reflexivity.
Qed.

(** C3, as the code has it: on a chart of interval '5m', '10m', '15m',
    '30m' or '1h' the live pass returns exactly one tick for each visible
    bar that opens a day group (the first visible bar, and every bar whose
    day of the month differs from that of the bar before it); its text is
    the day number when the bar before it in the range has the same month
    and the abbreviated month followed by the day number otherwise, and its
    coordinate is [convertToPixel i - halfBar].  When the visible bars are
    in chronological order and no bar follows its neighbour on the same day
    number of another month, these are the first visible bars of the
    calendar days.  For every other interval the pass returns the ticks of
    the bars that open a group of that interval's key (none when the
    interval has no case), each at [convertToPixel] of its bar, with no
    offset. *)
Theorem subHour_ticks_between_days (chart : Chart) (ticks : list AxisTick) :
  barsInRange chart ->
  (isOneOf (interval chart) ["5m"; "10m"; "15m"; "30m"; "1h"] = true ->
   _optimalTicks chart ticks =
     Ok (map (subHourTick chart)
             (filter (opens chart (dayOf chart)) (visibleIndices chart))) /\
   (forall i, coord (subHourTick chart i) =
              convertToPixel chart i - halfBar (getBarSpace (getTimeScaleStore chart))) /\
   (chronologicalIntraday chart ->
    forall i, realFrom (getRange chart) <= i <= realTo (getRange chart) ->
      opens chart (dayOf chart) i = true <->
      (forall j, realFrom (getRange chart) <= j < i -> ~ sameCalendarDay chart j i))) /\
  (isOneOf (interval chart) ["5m"; "10m"; "15m"; "30m"; "1h"] = false ->
   exists l,
     _optimalTicks chart ticks = Ok l /\
     l = groupTicks chart /\
     (classify (interval chart) <> Unrecognized ->
      map value l =
        filter (opens chart (groupKeyOf chart)) (visibleIndices chart)) /\
     (classify (interval chart) = Unrecognized -> l = []) /\
     forall t, In t l -> coord t = convertToPixel chart (value t)).
Proof.
  intros Hbars. rewrite (_optimalTicks_closed chart Hbars ticks). split.
  - intros Hsub. split; [|split].
    + unfold groupTicks. rewrite (classify_subHour _ Hsub). reflexivity.
    + reflexivity.
    + intros Hchrono i Hi.
      apply opens_day_iff_first_of_calendar_day; assumption.
  - intros Hother. apply classify_not_subHour in Hother.
    exists (groupTicks chart). split; [reflexivity|]. split; [reflexivity|].
    split; [|split].
    + intros Hrec. rewrite groupTicks_value. unfold groupKeyOf.
      destruct (classify (interval chart)); congruence.
    + intros Hun. unfold groupTicks. rewrite Hun. reflexivity.
    + intros t Ht. apply groupTicks_own_coord; assumption.
Qed.

(** Six hourly bars over three days: a tick at the first bar of each
    day, half a bar (4 pixels) before the bar's centre, and none at the
    other three bars; bar 2 (February 1, 00:00) is the first visible bar of
    its calendar day. *)
Lemma subHour_ticks_example :
  _optimalTicks (Example.hourlyChart "1h") [] =
    Ok [ {| text := "Jan 31"; coord := 0; value := 0 |};
         {| text := "Feb 1"; coord := 16; value := 2 |};
         {| text := "2"; coord := 32; value := 4 |} ] /\
  (forall i, coord (subHourTick (Example.hourlyChart "1h") i) =
             convertToPixel (Example.hourlyChart "1h") i - 4) /\
  (opens (Example.hourlyChart "1h") (dayOf (Example.hourlyChart "1h")) 2 = true <->
   (forall j, 0 <= j < 2 -> ~ sameCalendarDay (Example.hourlyChart "1h") j 2)).
Proof.
  assert (Hbars : barsInRange (Example.hourlyChart "1h"))
    by (unfold barsInRange; cbn; lia).
  destruct (proj1 (subHour_ticks_between_days (Example.hourlyChart "1h") [] Hbars) eq_refl)
    as (Hticks & Hcoord & Hfirst).
  split; [exact Hticks|]. split; [exact Hcoord|].
  apply Hfirst; [|cbn; lia].
  intros j Hj. cbn in Hj.
  assert (Hcases : j = 1 \/ j = 2 \/ j = 3 \/ j = 4 \/ j = 5) by lia.
  unfold dayNotAfter.
  destruct Hcases as [-> | [-> | [-> | [-> | ->] ] ] ]; vm_compute;
    (split; [|intros H; first [split; reflexivity | discriminate H]]);
    first [ right; split; [reflexivity|]; right; split; [reflexivity | discriminate]
          | right; split; [reflexivity|]; left; reflexivity
          | left; reflexivity ].
Defined.

(** C3 as stated fails: of two hourly bars in chronological order and a
    month apart, 2024-01-15 10:00 and 2024-02-15 10:00, the second is the
    first bar of a new calendar day and gets no tick: its day number is the
    one of the bar before it. *)
Lemma hourly_month_apart_skips_day :
  let chart := Example.chartOf Example.monthApart Auto (Some "1h") 0 2 in
  _optimalTicks chart [] = Ok [{| text := "Jan 15"; coord := 0; value := 0 |}] /\
  timestamp (rowAt chart 0) < timestamp (rowAt chart 1) /\
  (monthOf chart 0 = 0 /\ monthOf chart 1 = 1) /\
  ~ (forall i, realFrom (getRange chart) <= i <= realTo (getRange chart) ->
       (forall j, realFrom (getRange chart) <= j < i -> ~ sameCalendarDay chart j i) ->
       exists l t, _optimalTicks chart [] = Ok l /\ In t l /\ value t = i).
Proof.
  cbv zeta. split; [reflexivity|]. split; [reflexivity|].
  split; [split; reflexivity|].
  intros H. destruct (H 1) as (l & t & Hl & Hin & Hv).
  - cbn. lia.
  - intros j Hj. cbn in Hj. replace j with 0 by lia.
    intros (_ & Hm & _). vm_compute in Hm. discriminate Hm.
  - vm_compute in Hl. injection Hl as <-.
    destruct Hin as [<-|[]]. discriminate Hv.
Qed.

(** ** The stride pass after the early return *)

Lemma everyNthFrom_skipn {A : Type} (N : nat) (k : nat) : forall l : list A,
  everyNthFrom N k l = everyNth N (skipn k l).
Proof.
  induction k as [|k IH]; intros l; [reflexivity|].
  destruct l as [|x l]; [reflexivity|]. cbn [everyNthFrom skipn]. apply IH.
Qed.

Lemma everyNth_cons {A : Type} (N : nat) (x : A) (l : list A) :
  (1 <= N)%nat -> everyNth N (x :: l) = x :: everyNth N (skipn N (x :: l)).
Proof.
  intros HN. unfold everyNth at 1. cbn [everyNthFrom].
  rewrite everyNthFrom_skipn. destruct N as [|N]; [lia|].
  cbn [skipn]. replace (S N - 1)%nat with N by lia. reflexivity.
Qed.

Lemma everyNth_one {A : Type} (l : list A) : everyNth 1 l = l.
Proof.
  unfold everyNth. induction l as [|x l IH]; cbn; [reflexivity|].
  f_equal. exact IH.
Qed.

Lemma skipn_nth_error {A : Type} (n : nat) : forall l : list A,
  (n < List.length l)%nat ->
  exists x, nth_error l n = Some x /\ skipn n l = x :: skipn (S n) l.
Proof.
  induction n as [|n IH]; intros [|y l] Hn; cbn in Hn; try lia.
  - exists y. split; reflexivity.
  - destruct (IH l ltac:(lia)) as (x & Hx & Hs). exists x. split; assumption.
Qed.

Lemma strideFor_pos (w : Q) (gap : Z) : 0 < gap -> 1 <= strideFor w gap.
Proof.
  intros Hgap. unfold strideFor. destruct (Qlt_le_dec (inject_Z gap) w) as [Hlt|_]; [|lia].
  change 1 with (Qceiling 1). apply Qceiling_resp_le.
  apply Qle_shift_div_l.
  - change 0%Q with (inject_Z 0). rewrite <- Zlt_Qlt. exact Hgap.
  - rewrite Qmult_1_l. apply Qlt_le_weak. exact Hlt.
Qed.

Section Stride.

Variable chart : Chart.
Variable ticks : list AxisTick.
Hypothesis valid : candidatesInData chart ticks.

Let len := Z.of_nat (List.length ticks).

Lemma posAt_nth (i : Z) (t : AxisTick) :
  0 <= i -> nth_error ticks (Z.to_nat i) = Some t -> posAt ticks i = Ok (value t).
Proof.
  intros Hi Hnth. unfold posAt, Js.index.
  destruct (Z.ltb_spec i 0); [lia|]. rewrite Hnth. reflexivity.
Qed.

Lemma timestampAt_candidate (t : AxisTick) :
  In t ticks -> timestampAt chart (value t) = Ok (timestamp (rowAt chart (value t))).
Proof.
  intros Hin. unfold timestampAt. rewrite index_rowAt by (apply valid, Hin).
  reflexivity.
Qed.

(** One turn of the stride loop at a kept candidate. *)
Lemma strideBody_ok (d i : Z) (acc : list AxisTick) (t : AxisTick) :
  0 <= i -> nth_error ticks (Z.to_nat i) = Some t -> i = 0 \/ 1 <= d <= i ->
  exists label,
    strideBody chart ticks (Finite d) i acc =
    Ok (push acc {| text := label;
                    coord := convertToPixel chart (value t);
                    value := timestamp (rowAt chart (value t)) |}).
Proof.
  intros Hi Hnth Hprev. unfold strideBody.
  rewrite (posAt_nth i t Hi Hnth). cbn [bind].
  rewrite (timestampAt_candidate t (nth_error_In _ _ Hnth)). cbn [bind].
  destruct (Z.eqb_spec i 0) as [->|Hne]; cbn [negb bind].
  - eexists. reflexivity.
  - assert (Hlt : (Z.to_nat i < List.length ticks)%nat)
      by (apply nth_error_Some; congruence).
    destruct (skipn_nth_error (Z.to_nat (i - d)) ticks ltac:(lia)) as (p & Hp & _).
    rewrite (posAt_nth (i - d) p ltac:(lia) Hp). cbn [bind].
    rewrite (timestampAt_candidate p (nth_error_In _ _ Hp)). cbn [bind].
    eexists. reflexivity.
Qed.

(** The loop with a finite stride keeps every [d]-th candidate from
    where it stands, and stops within [fuel] turns. *)
Lemma strideLoop_finite (d : Z) (fuel : nat) : forall (i : Z) (acc : list AxisTick),
  1 <= d -> 0 <= i -> i = 0 \/ d <= i ->
  Z.max 0 (len - i) < Z.of_nat fuel ->
  exists kept,
    strideLoop chart fuel ticks (Finite d) i acc = Ok kept /\
    map coord kept =
      (map coord acc ++
       map (fun t => convertToPixel chart (value t))
           (everyNth (Z.to_nat d) (skipn (Z.to_nat i) ticks)))%list /\
    map value kept =
      (map value acc ++
       map (fun t => timestamp (rowAt chart (value t)))
           (everyNth (Z.to_nat d) (skipn (Z.to_nat i) ticks)))%list.
Proof.
  induction fuel as [|fuel IH]; intros i acc Hd Hi Hprev Hfuel; [lia|].
  cbn [strideLoop]. fold len. destruct (Z.ltb_spec i len) as [Hlt|Hge].
  - destruct (skipn_nth_error (Z.to_nat i) ticks ltac:(lia)) as (t & Hnth & Hskip).
    destruct (strideBody_ok d i acc t Hi Hnth ltac:(lia)) as (label & ->).
    cbn [bind].
    destruct (IH (i + d) (push acc {| text := label;
                                     coord := convertToPixel chart (value t);
                                     value := timestamp (rowAt chart (value t)) |})
                Hd ltac:(lia) ltac:(lia) ltac:(lia)) as (kept & Hk & Hc & Hv).
    exists kept. split; [exact Hk|].
    rewrite Hc, Hv, Hskip, everyNth_cons by lia. rewrite <- Hskip, skipn_skipn.
    replace (Z.to_nat d + Z.to_nat i)%nat with (Z.to_nat (i + d)) by lia.
    unfold push. rewrite !map_app, <- !app_assoc. split; reflexivity.
  - exists acc. split; [reflexivity|].
    rewrite skipn_all2 by lia. cbn. rewrite !app_nil_r. split; reflexivity.
Qed.

End Stride.

Lemma relabelFirst_keeps_places (chart : Chart) (kept : list AxisTick) :
  kept <> [] ->
  exists l, relabelFirst chart kept = Ok l /\
            map coord l = map coord kept /\ map value l = map value kept.
Proof.
  intros Hne. destruct kept as [|t0 [|t1 [|t2 rest]]]; [congruence| | |];
    cbn [relabelFirst].
  - eexists. split; [reflexivity|]. split; reflexivity.
  - eexists. split; [reflexivity|]. split; reflexivity.
  - destruct (test reMonthDay (text t2)); [|destruct (test reYearMonth (text t2));
      [|destruct (test reYear (text t2))]];
      (eexists; split; [reflexivity|]; split; reflexivity).
Qed.

Lemma tickCountDifOf_finite (chart : Chart) (t0 t1 : AxisTick) (rest : list AxisTick) :
  0 < xDifOf chart t0 t1 ->
  tickCountDifOf chart (t0 :: t1 :: rest) =
  Finite (strideFor (defaultLabelWidth chart) (xDifOf chart t0 t1)).
Proof.
  intros Hgap. unfold tickCountDifOf, strideFor.
  destruct (Qlt_le_dec _ _); [|reflexivity].
  destruct (Z.eqb_spec (xDifOf chart t0 t1) 0); [lia|reflexivity].
Qed.

(** C6, as the code has it: the density reduction sits after the early
    return.  Run on at least two candidate ticks that name bars of the data
    list and whose first two are a positive gap apart, those statements
    keep the candidates at indices 0, N, 2N, ... with
    [N = ceil(w / gap)] when the gap is smaller than the reference width
    [w], and every candidate when the gap is at least [w].  What
    [optimalTicks] returns does not depend on the candidates. *)
Theorem legacy_stride_keeps_every_Nth
    (chart : Chart) (t0 t1 : AxisTick) (rest : list AxisTick) :
  let ticks := t0 :: t1 :: rest in
  let gap := xDifOf chart t0 t1 in
  let N := strideFor (defaultLabelWidth chart) gap in
  candidatesInData chart ticks ->
  0 < gap ->
  (exists l,
     legacyOptimalTicks chart ticks = Ok l /\
     map coord l =
       map (fun t => convertToPixel chart (value t)) (everyNth (Z.to_nat N) ticks) /\
     map value l =
       map (fun t => timestamp (rowAt chart (value t))) (everyNth (Z.to_nat N) ticks)) /\
  ((inject_Z gap < defaultLabelWidth chart)%Q ->
   N = Qceiling (defaultLabelWidth chart / inject_Z gap)) /\
  ((defaultLabelWidth chart <= inject_Z gap)%Q ->
   everyNth (Z.to_nat N) ticks = ticks) /\
  (forall ticks', optimalTicks chart ticks = optimalTicks chart ticks').
Proof.
  intros ticks gap N Hvalid Hgap.
  pose proof (strideFor_pos (defaultLabelWidth chart) gap Hgap) as HN. fold N in HN.
  split; [|split; [|split]].
  - destruct (strideLoop_finite chart ticks Hvalid N (S (List.length ticks)) 0 []
                HN ltac:(lia) ltac:(lia) ltac:(lia)) as (kept & Hk & Hc & Hv).
    cbn [map app skipn Z.to_nat] in Hc, Hv.
    assert (Hne : kept <> []).
    { intros ->. unfold ticks in Hc. rewrite everyNth_cons in Hc by lia.
      discriminate Hc. }
    destruct (relabelFirst_keeps_places chart kept Hne) as (l & Hl & Hlc & Hlv).
    exists l. unfold legacyOptimalTicks, strideTicks.
    unfold ticks at 1. cbn [List.length Z.ltb Z.of_nat Z.compare].
    fold ticks. unfold ticks at 3. rewrite (tickCountDifOf_finite chart t0 t1 rest Hgap).
    fold gap N ticks. rewrite Hk. cbn [bind].
    split; [exact Hl|]. split; congruence.
  - intros Hlt. unfold N, strideFor.
    destruct (Qlt_le_dec _ _) as [_|Hle]; [reflexivity|].
    exfalso. exact (Qlt_not_le _ _ Hlt Hle).
  - intros Hle. unfold N, strideFor.
    destruct (Qlt_le_dec _ _) as [Hlt|_].
    + exfalso. exact (Qlt_not_le _ _ Hlt Hle).
    + apply everyNth_one.
  - intros ticks'. reflexivity.
Qed.

(** The stride statements on the seven candidates of the example: a gap of
    8 pixels against a reference width of 22 gives [N = 3], and the
    candidates 0, 3 and 6 are kept. *)
Lemma legacy_stride_example :
  exists l,
    legacyOptimalTicks (Example.chart "1d") Example.candidates = Ok l /\
    map coord l = [4; 28; 52] /\
    map value l = [Example.jan28;
                   Example.jan28 + 3 * Js.Utc.msPerDay;
                   Example.jan28 + 6 * Js.Utc.msPerDay].
Proof.
  refine (proj1 (legacy_stride_keeps_every_Nth (Example.chart "1d")
                   (nth 0 Example.candidates {| text := ""; coord := 0; value := 0 |})
                   (nth 1 Example.candidates {| text := ""; coord := 0; value := 0 |})
                   (skipn 2 Example.candidates) _ _)).
  - intros t Ht. cbn in Ht.
    repeat (destruct Ht as [<-|Ht]; [cbn; lia|]). destruct Ht.
  - vm_compute. reflexivity.
Defined.

(** C6 as stated fails on what [optimalTicks] returns: for the seven
    candidates of the example the gap is 8, the reference width 22 and
    [N = 3], so candidates 0, 3 and 6 should be kept; the returned ticks are
    the two month ticks at bars 0 and 4. *)
Lemma optimalTicks_does_not_stride :
  let chart := Example.chart "1d" in
  let N := strideFor (defaultLabelWidth chart)
                     (xDifOf chart (nth 0 Example.candidates (Build_AxisTick "" 0 0))
                                   (nth 1 Example.candidates (Build_AxisTick "" 0 0))) in
  N = 3 /\
  map value (everyNth (Z.to_nat N) Example.candidates) = [0; 3; 6] /\
  (exists l, optimalTicks chart Example.candidates = Ok l /\ map value l = [0; 4]) /\
  ~ (exists l, optimalTicks chart Example.candidates = Ok l /\
               map coord l = map coord (everyNth (Z.to_nat N) Example.candidates)).
Proof.
  cbv zeta. split; [reflexivity|]. split; [reflexivity|]. split.
  - eexists. split; reflexivity.
  - intros (l & Hl & Hc). vm_compute in Hl. injection Hl as <-.
    vm_compute in Hc. discriminate Hc.
Qed.

(** ** The single-tick label *)

(** C5, as the code has it: the relabeling of a single tick sits after
    the early return.  When the stride loop of those statements yields
    exactly one tick, they hand it back with its text replaced by
    [formatDate] of its timestamp in the pattern 'YYYY-MM-DD HH:mm'; a
    single tick of the live pass is returned by [optimalTicks] as it is. *)
Theorem legacy_single_tick_full_label
    (chart : Chart) (ticks : list AxisTick) (t : AxisTick) :
  strideTicks chart ticks = Ok [t] ->
  legacyOptimalTicks chart ticks =
    Ok [{| text := formatDate chart (value t) "YYYY-MM-DD HH:mm";
           coord := coord t; value := value t |}] /\
  (forall t', _optimalTicks chart ticks = Ok [t'] ->
              optimalTicks chart ticks = Ok [t']).
Proof.
  intros Hone. split.
  - unfold legacyOptimalTicks. destruct ticks as [|c ticks].
    + vm_compute in Hone. discriminate Hone.
    + replace (0 <? Z.of_nat (List.length (c :: ticks))) with true
        by (symmetry; apply Z.ltb_lt; cbn [List.length]; lia).
      rewrite Hone. reflexivity.
  - intros t' Hlive. unfold optimalTicks. cbn [then_]. exact Hlive.
Qed.

(** A single candidate at bar 0 of the example. *)
Lemma legacy_single_tick_example :
  legacyOptimalTicks (Example.chart "1d") (firstn 1 Example.candidates) =
    Ok [{| text := "2024-01-28 00:00"; coord := 4; value := Example.jan28 |}].
Proof.
  refine (proj1 (legacy_single_tick_full_label (Example.chart "1d")
                   (firstn 1 Example.candidates)
                   {| text := "00:00"; coord := 4; value := Example.jan28 |} _)).
  vm_compute. reflexivity.
Defined.

(** C5 as stated fails on what [optimalTicks] returns: with one visible
    daily bar (2024-01-28) the single tick keeps its group label "2024";
    it is not the 'YYYY-MM-DD HH:mm' label of the bar's timestamp, nor of
    the tick's [value]. *)
Lemma optimalTicks_single_tick_not_relabelled :
  let chart := Example.oneBar "1d" in
  optimalTicks chart [] = Ok [{| text := "2024"; coord := 4; value := 0 |}] /\
  formatDate chart (timestamp (rowAt chart 0)) "YYYY-MM-DD HH:mm" = "2024-01-28 00:00" /\
  ~ (forall t, optimalTicks chart [] = Ok [t] ->
               text t = formatDate chart (timestamp (rowAt chart (value t)))
                                   "YYYY-MM-DD HH:mm" \/
               text t = formatDate chart (value t) "YYYY-MM-DD HH:mm").
Proof.
  cbv zeta. split; [reflexivity|]. split; [reflexivity|].
  intros H. specialize (H _ eq_refl). vm_compute in H.
  destruct H as [H|H]; discriminate H.
Qed.

(** * Further properties of the axis *)

(** ** Bars that are missing from the data list *)

Section MissingBar.

Variable chart : Chart.

Lemma subHourBody_index (i : Z) (st : option Z * option Z * list AxisTick) :
  match Js.index (getDataList chart) i with
  | None => subHourBody chart i st = TypeError
  | Some _ => exists st', subHourBody chart i st = Ok st'
  end.
Proof.
  destruct st as [[pm pd] t]. unfold subHourBody.
  destruct (Js.index (getDataList chart) i); [eexists|]; reflexivity.
Qed.

Lemma twoThreeHourBody_index (i : Z) (st : option Z * option Z * list AxisTick) :
  match Js.index (getDataList chart) i with
  | None => twoThreeHourBody chart i st = TypeError
  | Some _ => exists st', twoThreeHourBody chart i st = Ok st'
  end.
Proof.
  destruct st as [[pm pw] t]. unfold twoThreeHourBody.
  destruct (Js.index (getDataList chart) i); [eexists|]; reflexivity.
Qed.

Lemma dailyBody_index (i : Z) (st : option Z * option Z * list AxisTick) :
  match Js.index (getDataList chart) i with
  | None => dailyBody chart i st = TypeError
  | Some _ => exists st', dailyBody chart i st = Ok st'
  end.
Proof.
  destruct st as [[py pm] t]. unfold dailyBody.
  destruct (Js.index (getDataList chart) i); [eexists|]; reflexivity.
Qed.

Lemma weekMonthBody_index (i : Z) (st : option Z * list AxisTick) :
  match Js.index (getDataList chart) i with
  | None => weekMonthBody chart i st = TypeError
  | Some _ => exists st', weekMonthBody chart i st = Ok st'
  end.
Proof.
  destruct st as [py t]. unfold weekMonthBody.
  destruct (Js.index (getDataList chart) i); [eexists|]; reflexivity.
Qed.

(** A loop whose body throws exactly at the missing bars throws as soon
    as its range holds one. *)
Lemma for_loop_missing {St : Type} (body : Z -> St -> result St) :
  (forall i s,
     match Js.index (getDataList chart) i with
     | None => body i s = TypeError
     | Some _ => exists s', body i s = Ok s'
     end) ->
  forall (n : nat) (i j : Z) (s : St),
    i <= j < i + Z.of_nat n ->
    Js.index (getDataList chart) j = None ->
    for_loop n i body s = TypeError.
Proof.
  intros Hbody. induction n as [|n IH]; intros i j s Hj Hnone; [lia|].
  cbn [for_loop]. pose proof (Hbody i s) as Hi.
  destruct (Js.index (getDataList chart) i) eqn:Ei.
  - destruct Hi as (s' & ->). cbn [bind].
    apply (IH (i + 1) j); [|exact Hnone].
    assert (j <> i) by congruence. lia.
  - rewrite Hi. reflexivity.
Qed.

End MissingBar.

(** X1: for a recognized interval, when some index of the visible range
    [realFrom..realTo] is not a bar of the data list, the live pass throws
    (the property read on [undefined]), and so does [optimalTicks]. *)
Theorem missing_bar_throws (chart : Chart) (ticks : list AxisTick) (j : Z) :
  classify (interval chart) <> Unrecognized ->
  realFrom (getRange chart) <= j <= realTo (getRange chart) ->
  Js.index (getDataList chart) j = None ->
  _optimalTicks chart ticks = TypeError /\ optimalTicks chart ticks = TypeError.
Proof.
  intros Hclass Hj Hnone.
  assert (Hlive : _optimalTicks chart ticks = TypeError).
  { unfold _optimalTicks, for_range.
    destruct (classify (interval chart)); [| | | |congruence].
    - rewrite (for_loop_missing chart (subHourBody chart) (subHourBody_index chart)
                 _ _ j); [reflexivity|lia|exact Hnone].
    - rewrite (for_loop_missing chart (twoThreeHourBody chart) (twoThreeHourBody_index chart)
                 _ _ j); [reflexivity|lia|exact Hnone].
    - rewrite (for_loop_missing chart (dailyBody chart) (dailyBody_index chart)
                 _ _ j); [reflexivity|lia|exact Hnone].
    - rewrite (for_loop_missing chart (weekMonthBody chart) (weekMonthBody_index chart)
                 _ _ j); [reflexivity|lia|exact Hnone]. }
  split; [exact Hlive|]. unfold optimalTicks. cbn [then_]. exact Hlive.
Qed.

(** A visible range of seven indices over five bars: bar 5 is missing. *)
Lemma missing_bar_throws_example :
  _optimalTicks (Example.chartOf (firstn 5 Example.bars) Auto (Some "1w") 0 7) [] = TypeError /\
  optimalTicks (Example.chartOf (firstn 5 Example.bars) Auto (Some "1w") 0 7) [] = TypeError.
Proof.
  apply (missing_bar_throws
           (Example.chartOf (firstn 5 Example.bars) Auto (Some "1w") 0 7) [] 5).
  - vm_compute. discriminate.
  - cbn. lia.
  - reflexivity.
Defined.

(** ** Intervals without a case *)


Lemma isOneOf_In (s : string) (labels : list string) :
  isOneOf s labels = true <-> In s labels.
Proof.
  unfold isOneOf. rewrite existsb_exists. split.
  - intros (x & Hx & Heq). apply String.eqb_eq in Heq. subst. exact Hx.
  - intros H. exists s. split; [exact H | apply String.eqb_refl].
Qed.

Lemma classify_recognized (s : string) :
  classify s <> Unrecognized <->
  In s ["5m"; "10m"; "15m"; "30m"; "1h"; "2h"; "3h"; "1d"; "1w"; "1mo"].
Proof.
  unfold classify.
  destruct (isOneOf s ["5m"; "10m"; "15m"; "30m"; "1h"]) eqn:E1;
    [apply isOneOf_In in E1; cbn in *; split; [intuition | discriminate]|].
  destruct (isOneOf s ["2h"; "3h"]) eqn:E2;
    [apply isOneOf_In in E2; cbn in *; split; [intuition | discriminate]|].
  destruct (isOneOf s ["1d"]) eqn:E3;
    [apply isOneOf_In in E3; cbn in *; split; [intuition | discriminate]|].
  destruct (isOneOf s ["1w"; "1mo"]) eqn:E4;
    [apply isOneOf_In in E4; cbn in *; split; [intuition | discriminate]|].
  split; [congruence|]. intros Hin. exfalso.
  assert (H1 : ~ In s ["5m"; "10m"; "15m"; "30m"; "1h"])
    by (rewrite <- isOneOf_In; congruence).
  assert (H2 : ~ In s ["2h"; "3h"]) by (rewrite <- isOneOf_In; congruence).
  assert (H3 : ~ In s ["1d"]) by (rewrite <- isOneOf_In; congruence).
  assert (H4 : ~ In s ["1w"; "1mo"]) by (rewrite <- isOneOf_In; congruence).
  cbn in *. intuition.
Qed.

(** X2: the [switch] has no default case: when the ambient interval is
    none of the ten labels '5m', '10m', '15m', '30m', '1h', '2h', '3h', '1d',
    '1w', '1mo' (for instance '1m' or '4h'), the axis gets no tick at all,
    and no bar is read, so nothing is thrown even over missing bars. *)
Theorem other_interval_no_ticks (chart : Chart) (ticks : list AxisTick) :
  ~ In (interval chart)
       ["5m"; "10m"; "15m"; "30m"; "1h"; "2h"; "3h"; "1d"; "1w"; "1mo"] ->
  _optimalTicks chart ticks = Ok [] /\ optimalTicks chart ticks = Ok [].
Proof.
  intros Hother.
  assert (Hclass : classify (interval chart) = Unrecognized).
  { destruct (classify (interval chart)) eqn:E; try reflexivity;
      exfalso; apply Hother, classify_recognized; rewrite E; discriminate. }
  assert (Hlive : _optimalTicks chart ticks = Ok [])
    by (unfold _optimalTicks; rewrite Hclass; reflexivity).
  split; [exact Hlive|]. unfold optimalTicks. cbn [then_]. exact Hlive.
Qed.

(** A one-minute chart over a range that reaches past the data. *)
Lemma other_interval_no_ticks_example :
  _optimalTicks (Example.chartOf (firstn 5 Example.bars) Auto (Some "1m") 0 7) [] = Ok [] /\
  optimalTicks (Example.chartOf (firstn 5 Example.bars) Auto (Some "1m") 0 7) [] = Ok [].
Proof.
  apply (other_interval_no_ticks
           (Example.chartOf (firstn 5 Example.bars) Auto (Some "1m") 0 7) []).
  cbn. intros H.
  repeat (destruct H as [H|H]; [discriminate H|]). exact H.
Defined.

(** ** How many ticks, and where *)

Lemma zseq_length (n : nat) : forall lo, List.length (zseq lo n) = n.
Proof. induction n as [|n IH]; intros lo; cbn; [reflexivity|]. rewrite IH. reflexivity. Qed.

Lemma sorted_lt_NoDup (l : list Z) : StronglySorted Z.lt l -> NoDup l.
Proof.
  induction 1 as [|a l Hl IH Ha]; constructor; [|exact IH].
  intros Hin. rewrite Forall_forall in Ha. specialize (Ha a Hin). lia.
Qed.

Lemma groupTicks_value_visible (chart : Chart) (i : Z) :
  In i (map value (groupTicks chart)) -> In i (visibleIndices chart).
Proof.
  rewrite groupTicks_value.
  destruct (classify (interval chart)); cbn [In];
    try (intros H; apply filter_In in H; tauto); tauto.
Qed.

Lemma groupTicks_length (chart : Chart) :
  (List.length (groupTicks chart) <= List.length (visibleIndices chart))%nat.
Proof.
  rewrite <- (length_map value), groupTicks_value.
  destruct (classify (interval chart)); try apply filter_length_le; cbn; lia.
Qed.

(** X3: whatever the interval, the live pass returns at most one tick per
    visible bar: the ticks are no more than [realTo - realFrom + 1], every
    [value] is an index of the visible range, and no index has two
    ticks. *)
Theorem ticks_bounded_by_bars (chart : Chart) (ticks : list AxisTick) :
  barsInRange chart ->
  exists l,
    _optimalTicks chart ticks = Ok l /\
    Z.of_nat (List.length l) <=
      Z.max 0 (realTo (getRange chart) - realFrom (getRange chart) + 1) /\
    (forall t, In t l ->
       realFrom (getRange chart) <= value t <= realTo (getRange chart)) /\
    NoDup (map value l).
Proof.
  intros Hbars. exists (groupTicks chart).
  split; [apply _optimalTicks_closed, Hbars|]. split; [|split].
  - pose proof (groupTicks_length chart) as Hlen.
    unfold visibleIndices in Hlen. rewrite zseq_length in Hlen. lia.
  - intros t Ht.
    assert (Hin : In (value t) (visibleIndices chart))
      by (apply groupTicks_value_visible, in_map, Ht).
    unfold visibleIndices in Hin. apply zseq_In in Hin. lia.
  - apply sorted_lt_NoDup, groupTicks_value_sorted.
Qed.

(** The seven five-minute bars of the example: at most seven ticks. *)
Lemma ticks_bounded_by_bars_example :
  exists l,
    _optimalTicks (Example.chart "5m") [] = Ok l /\
    Z.of_nat (List.length l) <= 7 /\
    (forall t, In t l -> 0 <= value t <= 6) /\
    NoDup (map value l).
Proof.
  apply (ticks_bounded_by_bars (Example.chart "5m") []).
  unfold barsInRange. cbn. lia.
Defined.

(** ** Neighbouring ticks *)

Lemma filter_zseq_head (c : Z -> bool) (n : nat) : forall (lo b : Z) (l : list Z),
  filter c (zseq lo n) = b :: l ->
  lo <= b < lo + Z.of_nat n /\ c b = true /\ (forall j, lo <= j < b -> c j = false).
Proof.
  induction n as [|n IH]; intros lo b l H; cbn in H; [discriminate H|].
  destruct (c lo) eqn:E.
  - injection H as <- _. repeat split; try lia. exact E.
  - destruct (IH _ _ _ H) as (Hb & Hc & Hj). repeat split; try lia; [exact Hc|].
    intros j Hlo. destruct (Z.eq_dec j lo) as [->|Hne]; [exact E|]. apply Hj. lia.
Qed.

Lemma filter_zseq_adjacent (c : Z -> bool) (n : nat) :
  forall (lo : Z) (l1 : list Z) (a b : Z) (l2 : list Z),
  filter c (zseq lo n) = (l1 ++ a :: b :: l2)%list ->
  lo <= a /\ a < b /\ b < lo + Z.of_nat n /\ c b = true /\
  (forall j, a < j < b -> c j = false).
Proof.
  induction n as [|n IH]; intros lo l1 a b l2 H; cbn in H.
  - destruct l1; discriminate H.
  - destruct (c lo) eqn:E.
    + destruct l1 as [|x l1]; cbn in H.
      * injection H as <- H.
        destruct (filter_zseq_head c n _ _ _ H) as (Hb & Hc & Hj).
        repeat split; try lia; [exact Hc|]. intros j Hlo. apply Hj. lia.
      * injection H as _ H. destruct (IH _ _ _ _ _ H) as (? & ? & ? & ? & ?).
        repeat split; try lia; assumption.
    + destruct (IH _ _ _ _ _ H) as (? & ? & ? & ? & ?).
      repeat split; try lia; assumption.
Qed.

Lemma key_constant_run (key : Z -> Z) (a : Z) (n : nat) :
  (forall j, a < j <= a + Z.of_nat n -> key j = key (j - 1)) ->
  key (a + Z.of_nat n) = key a.
Proof.
  induction n as [|n IH]; intros H.
  - f_equal. lia.
  - rewrite (H (a + Z.of_nat (S n))) by lia.
    replace (a + Z.of_nat (S n) - 1) with (a + Z.of_nat n) by lia.
    apply IH. intros j Hj. apply H. lia.
Qed.

Lemma opens_adjacent (chart : Chart) (key : Z -> Z) (l1 : list Z) (a b : Z) (l2 : list Z) :
  filter (opens chart key) (visibleIndices chart) = (l1 ++ a :: b :: l2)%list ->
  a < b /\ key a <> key b /\ (forall j, a <= j < b -> key j = key a).
Proof.
  intros H. apply filter_zseq_adjacent in H as (Hlo & Hab & Hhi & Hb & Hbetween).
  assert (Hrun : forall j, a <= j < b -> key j = key a).
  { intros j Hj. replace j with (a + Z.of_nat (Z.to_nat (j - a))) by lia.
    apply key_constant_run. intros k Hk.
    specialize (Hbetween k ltac:(lia)). unfold opens in Hbetween.
    apply orb_false_iff in Hbetween as (_ & Hkey).
    apply negb_false_iff, Z.eqb_eq in Hkey. exact Hkey. }
  split; [exact Hab|]. split; [|exact Hrun].
  unfold opens in Hb. destruct (Z.eqb_spec b (realFrom (getRange chart))); [lia|].
  cbn in Hb. apply negb_true_iff, Z.eqb_neq in Hb.
  rewrite <- (Hrun (b - 1)) by lia. congruence.
Qed.

Lemma map_eq_adjacent {A B : Type} (f : A -> B) (l : list A) :
  forall (l1 : list B) (x y : B) (l2 : list B),
  map f l = (l1 ++ x :: y :: l2)%list ->
  exists m1 a b m2, l = (m1 ++ a :: b :: m2)%list /\ f a = x /\ f b = y.
Proof.
  induction l as [|c l IH]; intros l1 x y l2 H.
  - destruct l1; discriminate H.
  - destruct l1 as [|z l1]; cbn in H.
    + destruct l as [|d l]; [discriminate H|]. cbn in H.
      injection H as Hx Hy _. exists [], c, d, l. repeat split; assumption.
    + injection H as _ H. destruct (IH _ _ _ _ H) as (m1 & a & b & m2 & -> & Ha & Hb).
      exists (c :: m1), a, b, m2. repeat split; assumption.
Qed.

(** X4: two neighbouring ticks of the live pass never belong to the same
    group: the second sits at a later bar with a different key (day, week,
    month or year, by interval class), and every bar from the first tick up
    to the bar before the second has the key of the first. *)
Theorem neighbouring_ticks_differ (chart : Chart) (ticks : list AxisTick)
    (l1 : list AxisTick) (t1 t2 : AxisTick) (l2 : list AxisTick) :
  barsInRange chart ->
  _optimalTicks chart ticks = Ok (l1 ++ t1 :: t2 :: l2)%list ->
  value t1 < value t2 /\
  groupKeyOf chart (value t1) <> groupKeyOf chart (value t2) /\
  (forall j, value t1 <= j < value t2 ->
             groupKeyOf chart j = groupKeyOf chart (value t1)).
Proof.
  intros Hbars Hres. rewrite (_optimalTicks_closed chart Hbars ticks) in Hres.
  injection Hres as Hres.
  assert (Hval : map value (groupTicks chart) =
                 (map value l1 ++ value t1 :: value t2 :: map value l2)%list)
    by (rewrite Hres, map_app; reflexivity).
  rewrite groupTicks_value in Hval. unfold groupKeyOf.
  destruct (classify (interval chart));
    try (exact (opens_adjacent chart _ _ _ _ _ Hval)).
  destruct (map value l1); discriminate Hval.
Qed.

(** The two daily ticks of the example: bars 0 to 3 are one month, bar 4
    opens the next. *)
Lemma neighbouring_ticks_differ_example :
  0 < 4 /\
  groupKeyOf (Example.chart "1d") 0 <> groupKeyOf (Example.chart "1d") 4 /\
  (forall j, 0 <= j < 4 ->
             groupKeyOf (Example.chart "1d") j = groupKeyOf (Example.chart "1d") 0).
Proof.
  refine (neighbouring_ticks_differ (Example.chart "1d") [] []
            {| text := "2024"; coord := 4; value := 0 |}
            {| text := "Feb"; coord := 36; value := 4 |} [] _ _).
  - unfold barsInRange. cbn. lia.
  - reflexivity.
Defined.

(** ** The other two interval classes in closed form *)

Lemma numberToString_inj (a b : Z) :
  Js.numberToString a = Js.numberToString b -> a = b.
Proof.
  unfold Js.numberToString. intros H. apply DecimalZ.to_int_inj.
  assert (Hnn : forall z, Z.to_int z <> Decimal.Pos Decimal.Nil /\
                          Z.to_int z <> Decimal.Neg Decimal.Nil).
  { intros [|p|p]; cbn; split; try discriminate; intros [= Hp];
      exact (DecimalPos.Unsigned.to_uint_nonnil p Hp). }
  destruct (Hnn a) as (Ha1 & Ha2). destruct (Hnn b) as (Hb1 & Hb2).
  pose proof (NilZero.isi _ Ha1 Ha2) as Ia. pose proof (NilZero.isi _ Hb1 Hb2) as Ib.
  rewrite H in Ia. congruence.
Qed.

Lemma classify_twoThreeHour (s : string) :
  isOneOf s ["2h"; "3h"] = true -> classify s = TwoThreeHour.
Proof.
  intros H. apply isOneOf_In in H. cbn in H.
  destruct H as [<-|[<-|[]]]; reflexivity.
Qed.

Lemma classify_weekMonth (s : string) :
  isOneOf s ["1w"; "1mo"] = true -> classify s = WeekMonth.
Proof.
  intros H. apply isOneOf_In in H. cbn in H.
  destruct H as [<-|[<-|[]]]; reflexivity.
Qed.

(** X5: on a chart of interval '2h' or '3h' the live pass returns one
    tick for each visible bar that opens a week group (the first visible
    bar, or a bar whose [week] differs from the [week] of the bar before
    it), at the bar's own coordinate; its text is the day number when the
    bar before it in the range has the same month, and the day number
    followed by the abbreviated month otherwise. *)
Theorem twoThreeHour_ticks_by_week (chart : Chart) (ticks : list AxisTick) :
  isOneOf (interval chart) ["2h"; "3h"] = true ->
  barsInRange chart ->
  _optimalTicks chart ticks =
    Ok (map (twoThreeHourTick chart)
            (filter (opens chart (weekOf chart)) (visibleIndices chart))).
Proof.
  intros Hint Hbars. rewrite (_optimalTicks_closed chart Hbars ticks).
  unfold groupTicks. rewrite (classify_twoThreeHour _ Hint). reflexivity.
Qed.

(** The example as a two-hour chart: week 4 ends with bar 0 (a Sunday),
    week 5 starts at bar 1. *)
Lemma twoThreeHour_ticks_example :
  _optimalTicks (Example.chart "2h") [] =
    Ok [ {| text := "28 Jan"; coord := 4; value := 0 |};
         {| text := "29"; coord := 12; value := 1 |} ].
Proof.
  refine (twoThreeHour_ticks_by_week (Example.chart "2h") [] eq_refl _).
  unfold barsInRange. cbn. lia.
Defined.

(** X6: over bars with valid timestamps (every [getFullYear] a
    number), on a chart of interval '1w' or '1mo' the live pass returns one
    tick for each visible bar that opens a year group, at the bar's own
    coordinate and labelled with the year in decimal; two neighbouring
    ticks never carry the same label. *)
Theorem weekMonth_ticks_by_year (chart : Chart) (ticks : list AxisTick) :
  isOneOf (interval chart) ["1w"; "1mo"] = true ->
  barsInRange chart ->
  _optimalTicks chart ticks =
    Ok (map (weekMonthTick chart)
            (filter (opens chart (yearOf chart)) (visibleIndices chart))) /\
  forall l l1 t1 t2 l2,
    _optimalTicks chart ticks = Ok l ->
    l = (l1 ++ t1 :: t2 :: l2)%list ->
    text t1 <> text t2.
Proof.
  intros Hint Hbars.
  assert (Hclosed : _optimalTicks chart ticks =
            Ok (map (weekMonthTick chart)
                    (filter (opens chart (yearOf chart)) (visibleIndices chart)))).
  { rewrite (_optimalTicks_closed chart Hbars ticks).
    unfold groupTicks. rewrite (classify_weekMonth _ Hint). reflexivity. }
  split; [exact Hclosed|].
  intros l l1 t1 t2 l2 Hl ->. rewrite Hclosed in Hl. injection Hl as Hl.
  apply map_eq_adjacent in Hl as (m1 & a & b & m2 & Hidx & <- & <-).
  apply opens_adjacent in Hidx as (_ & Hyear & _).
  cbn [text weekMonthTick]. intros Htext. apply Hyear, numberToString_inj, Htext.
Qed.

(** The example as a weekly chart: one year, one tick. *)
Lemma weekMonth_ticks_example :
  _optimalTicks (Example.chart "1w") [] =
    Ok [ {| text := "2024"; coord := 4; value := 0 |} ].
Proof.
  refine (proj1 (weekMonth_ticks_by_year (Example.chart "1w") [] eq_refl _)).
  unfold barsInRange. cbn. lia.
Defined.

(** ** The label helper and the relabeling pass *)

(** X7: [_optimalTickLabel] answers with the most significant date
    component in which the timestamp differs from the compared one (the
    year, else the year-month, else the month-day, as [formatDate] prints
    them), and with [null] exactly when the three agree; a timestamp
    compared with itself gives [null]. *)
Theorem optimalTickLabel_cases (chart : Chart) (timestamp comparedTimestamp : Z) :
  let y := formatDate chart timestamp "YYYY" in
  let m := formatDate chart timestamp "YYYY-MM" in
  let d := formatDate chart timestamp "MM-DD" in
  let y' := formatDate chart comparedTimestamp "YYYY" in
  let m' := formatDate chart comparedTimestamp "YYYY-MM" in
  let d' := formatDate chart comparedTimestamp "MM-DD" in
  (_optimalTickLabel chart timestamp comparedTimestamp = None <->
   y = y' /\ m = m' /\ d = d') /\
  (y <> y' -> _optimalTickLabel chart timestamp comparedTimestamp = Some y) /\
  (y = y' -> m <> m' -> _optimalTickLabel chart timestamp comparedTimestamp = Some m) /\
  (y = y' -> m = m' -> d <> d' ->
   _optimalTickLabel chart timestamp comparedTimestamp = Some d) /\
  _optimalTickLabel chart timestamp timestamp = None.
Proof.
  cbv zeta. unfold _optimalTickLabel.
  rewrite !String.eqb_refl. cbn [negb].
  destruct (String.eqb_spec (formatDate chart timestamp "YYYY")
                            (formatDate chart comparedTimestamp "YYYY")) as [Hy|Hy];
  destruct (String.eqb_spec (formatDate chart timestamp "YYYY-MM")
                            (formatDate chart comparedTimestamp "YYYY-MM")) as [Hm|Hm];
  destruct (String.eqb_spec (formatDate chart timestamp "MM-DD")
                            (formatDate chart comparedTimestamp "MM-DD")) as [Hd|Hd];
  cbn [negb]; repeat split; try tauto; try discriminate; try congruence;
  intros; try tauto; try congruence;
  match goal with H : _ /\ _ /\ _ |- _ => destruct H as (? & ? & ?); congruence end.
Qed.

(** January 28 against February 1 of the same year: the year-month. *)
Lemma optimalTickLabel_example :
  _optimalTickLabel (Example.chart "1d") Example.jan28
    (Example.jan28 + 4 * Js.Utc.msPerDay) = Some "2024-01".
Proof.
  refine (proj1 (proj2 (proj2 (optimalTickLabel_cases (Example.chart "1d") Example.jan28
                                 (Example.jan28 + 4 * Js.Utc.msPerDay)))) _ _).
  - reflexivity.
  - vm_compute. discriminate.
Defined.

(** X8: the relabeling pass never throws on a tick list that is not
    empty, and changes nothing but the text of the first tick: the
    coordinates, the values, the number of ticks and every later tick stay
    as they are. *)
Theorem relabelFirst_changes_first_text_only
    (chart : Chart) (t : AxisTick) (rest : list AxisTick) :
  exists label,
    relabelFirst chart (t :: rest) =
    Ok ({| text := label; coord := coord t; value := value t |} :: rest).
Proof.
  destruct rest as [|t1 [|t2 rest]]; cbn [relabelFirst].
  - eexists. reflexivity.
  - eexists. reflexivity.
  - destruct (test reMonthDay (text t2)); [eexists; reflexivity|].
    destruct (test reYearMonth (text t2)); [eexists; reflexivity|].
    destruct (test reYear (text t2)); [eexists; reflexivity|].
    exists (text t). destruct t. reflexivity.
Qed.

(** ** Edge cases of the stride statements *)

(** X9: when the first two candidates have the same pixel coordinate
    while the reference label has a positive width, the stride is
    [ceil(w / 0) = Infinity]: the statements after the early return keep
    the first candidate alone and give it the full 'YYYY-MM-DD HH:mm'
    label; the later candidates are not even read. *)
Theorem legacy_zero_gap_keeps_first
    (chart : Chart) (t0 t1 : AxisTick) (rest : list AxisTick) :
  xDifOf chart t0 t1 = 0 ->
  (0 < defaultLabelWidth chart)%Q ->
  0 <= value t0 < Z.of_nat (List.length (getDataList chart)) ->
  legacyOptimalTicks chart (t0 :: t1 :: rest) =
    Ok [{| text := formatDate chart (timestamp (rowAt chart (value t0))) "YYYY-MM-DD HH:mm";
           coord := convertToPixel chart (value t0);
           value := timestamp (rowAt chart (value t0)) |}].
Proof.
  intros Hgap Hw Hbar. unfold legacyOptimalTicks, strideTicks.
  cbn [List.length Z.ltb Z.of_nat Z.compare].
  assert (Hstride : tickCountDifOf chart (t0 :: t1 :: rest) = Infinity).
  { unfold tickCountDifOf. rewrite Hgap.
    destruct (Qlt_le_dec (inject_Z 0) (defaultLabelWidth chart)) as [_|Hle];
      [reflexivity|].
    exfalso. exact (Qlt_not_le _ _ Hw Hle). }
  rewrite Hstride. cbn [strideLoop].
  replace (0 <? Z.of_nat (List.length (t0 :: t1 :: rest))) with true
    by (symmetry; apply Z.ltb_lt; cbn [List.length]; lia).
  unfold strideBody, posAt, timestampAt. cbn [Js.index Z.ltb Z.compare Z.to_nat nth_error bind].
  rewrite index_rowAt by exact Hbar. cbn. reflexivity.
Qed.

(** Two candidates at bar 2 of the example. *)
Lemma legacy_zero_gap_example :
  legacyOptimalTicks (Example.chart "1d")
    [ {| text := "a"; coord := 20; value := 2 |};
      {| text := "b"; coord := 20; value := 2 |};
      {| text := "c"; coord := 900; value := 99 |} ] =
  Ok [{| text := "2024-01-30 00:00"; coord := 20;
         value := Example.jan28 + 2 * Js.Utc.msPerDay |}].
Proof.
  refine (legacy_zero_gap_keeps_first (Example.chart "1d")
            {| text := "a"; coord := 20; value := 2 |}
            {| text := "b"; coord := 20; value := 2 |}
            [ {| text := "c"; coord := 900; value := 99 |} ] _ _ _).
  - reflexivity.
  - reflexivity.
  - cbn. lia.
Defined.

(** X10: the stride statements read the bar of the first candidate
    before anything is kept: a first candidate that names no bar of the
    data list makes them throw, and an empty candidate list gives an empty
    tick list. *)
Theorem legacy_first_candidate_must_be_a_bar (chart : Chart) :
  legacyOptimalTicks chart [] = Ok [] /\
  forall (t0 : AxisTick) (rest : list AxisTick),
    Js.index (getDataList chart) (value t0) = None ->
    legacyOptimalTicks chart (t0 :: rest) = TypeError.
Proof.
  split; [reflexivity|]. intros t0 rest Hnone.
  unfold legacyOptimalTicks, strideTicks.
  replace (0 <? Z.of_nat (List.length (t0 :: rest))) with true
    by (symmetry; apply Z.ltb_lt; cbn [List.length]; lia).
  cbn [strideLoop].
  replace (0 <? Z.of_nat (List.length (t0 :: rest))) with true
    by (symmetry; apply Z.ltb_lt; cbn [List.length]; lia).
  unfold strideBody, posAt, timestampAt.
  cbn [Js.index Z.ltb Z.compare Z.to_nat nth_error bind]. rewrite Hnone. reflexivity.
Qed.

(** A candidate at index 9 of the seven bars. *)
Lemma legacy_first_candidate_example :
  legacyOptimalTicks (Example.chart "1d")
    [ {| text := "x"; coord := 76; value := 9 |} ] = TypeError.
Proof.
  refine (proj2 (legacy_first_candidate_must_be_a_bar (Example.chart "1d"))
            {| text := "x"; coord := 76; value := 9 |} [] _).
  reflexivity.
Defined.

(** * Price rounding *)

Section RoundPrice.

Import Utils.

Local Open Scope Q_scope.

Lemma mathRound_bounds (x : Q) :
  x - (1 # 2) < inject_Z (mathRound x) /\ inject_Z (mathRound x) <= x + (1 # 2).
Proof.
  unfold mathRound. pose proof (Qfloor_le (x + (1 # 2))) as Hle.
  pose proof (Qlt_floor (x + (1 # 2))) as Hlt.
  rewrite inject_Z_plus in Hlt. change (inject_Z 1) with 1 in Hlt. lra.
Qed.

Lemma mathRound_mono (x y : Q) : x <= y -> (mathRound x <= mathRound y)%Z.
Proof. intros H. unfold mathRound. apply Qfloor_resp_le. lra. Qed.

Lemma mathRound_Z (k : Z) : mathRound (inject_Z k) = k.
Proof.
  pose proof (mathRound_bounds (inject_Z k)) as (Hlo & Hhi).
  assert (H1 : inject_Z (k - 1) < inject_Z (mathRound (inject_Z k))).
  { replace (k - 1)%Z with (k + -1)%Z by lia.
    rewrite inject_Z_plus. change (inject_Z (-1)) with (-1). lra. }
  assert (H2 : inject_Z (mathRound (inject_Z k)) < inject_Z (k + 1)).
  { rewrite inject_Z_plus. change (inject_Z 1) with 1. lra. }
  rewrite <- Zlt_Qlt in H1, H2. lia.
Qed.

Lemma mathRound_comp (x y : Q) : x == y -> mathRound x = mathRound y.
Proof. intros H. unfold mathRound. apply Qfloor_comp. rewrite H. reflexivity. Qed.

Lemma mathRound_of_multiple (k f : Z) :
  (0 < f)%Z -> mathRound (inject_Z (k * f) / inject_Z f) = k.
Proof.
  intros Hf. rewrite <- (mathRound_Z k) at 2. apply mathRound_comp.
  rewrite inject_Z_mult. apply Qdiv_mult_l.
  intros H0. unfold Qeq in H0. cbn in H0. lia.
Qed.

Lemma nearest_multiple_mono (p q : Q) (f : Z) :
  (0 < f)%Z -> p <= q ->
  (mathRound (p / inject_Z f) * f <= mathRound (q / inject_Z f) * f)%Z.
Proof.
  intros Hf Hpq. apply Z.mul_le_mono_nonneg_r; [lia|]. apply mathRound_mono.
  assert (Hfq : 0 < inject_Z f) by (change 0 with (inject_Z 0); rewrite <- Zlt_Qlt; lia).
  unfold Qdiv. apply Qmult_le_compat_r; [exact Hpq|].
  apply Qlt_le_weak, Qinv_lt_0_compat, Hfq.
Qed.

Lemma nearest_multiple_ge (p : Q) (f a : Z) :
  (0 < f)%Z -> inject_Z (a * f) <= p -> (a * f <= mathRound (p / inject_Z f) * f)%Z.
Proof.
  intros Hf Ha. rewrite <- (mathRound_of_multiple a f Hf) at 1.
  apply nearest_multiple_mono; assumption.
Qed.

Lemma nearest_multiple_le (p : Q) (f b : Z) :
  (0 < f)%Z -> p <= inject_Z (b * f) -> (mathRound (p / inject_Z f) * f <= b * f)%Z.
Proof.
  intros Hf Hb. rewrite <- (mathRound_of_multiple b f Hf) at 1.
  apply nearest_multiple_mono; assumption.
Qed.

End RoundPrice.

Section RoundPriceBands.

Import Utils.

Local Open Scope Q_scope.

Lemma roundPrice_eq (p : Q) :
  roundPrice p = (mathRound (p / inject_Z (getFraction p)) * getFraction p)%Z.
Proof.
  unfold roundPrice, getFraction. destruct (Qlt_le_dec p 200); [|reflexivity].
  rewrite Z.mul_1_r. apply mathRound_comp. change (inject_Z 1) with 1. field.
Qed.

Lemma getFraction_band (p : Q) :
  (p < 200 /\ getFraction p = 1%Z) \/
  (200 <= p /\ p < 500 /\ getFraction p = 2%Z) \/
  (500 <= p /\ p < 2000 /\ getFraction p = 5%Z) \/
  (2000 <= p /\ p < 5000 /\ getFraction p = 10%Z) \/
  (5000 <= p /\ getFraction p = 25%Z).
Proof.
  unfold getFraction.
  destruct (Qlt_le_dec p 200); [left; tauto|right].
  destruct (Qlt_le_dec p 500); [left; tauto|right].
  destruct (Qlt_le_dec p 2000); [left; tauto|right].
  destruct (Qlt_le_dec p 5000); [left; tauto|right]. tauto.
Qed.

Lemma roundPrice_band (p : Q) :
  (p < 200 /\ getFraction p = 1%Z /\ (roundPrice p <= 200)%Z) \/
  (200 <= p /\ p < 500 /\ getFraction p = 2%Z /\ (200 <= roundPrice p <= 500)%Z) \/
  (500 <= p /\ p < 2000 /\ getFraction p = 5%Z /\ (500 <= roundPrice p <= 2000)%Z) \/
  (2000 <= p /\ p < 5000 /\ getFraction p = 10%Z /\ (2000 <= roundPrice p <= 5000)%Z) \/
  (5000 <= p /\ getFraction p = 25%Z /\ (5000 <= roundPrice p)%Z).
Proof.
  rewrite roundPrice_eq.
  destruct (getFraction_band p)
    as [(H1 & ->)|[(H1 & H2 & ->)|[(H1 & H2 & ->)|[(H1 & H2 & ->)|(H1 & ->)]]]].
  - left. repeat split; try assumption.
    apply (nearest_multiple_le p 1 200); [lia|]. change (inject_Z (200 * 1)) with 200. lra.
  - right; left. repeat split; try assumption.
    + apply (nearest_multiple_ge p 2 100); [lia|]. change (inject_Z (100 * 2)) with 200. lra.
    + apply (nearest_multiple_le p 2 250); [lia|]. change (inject_Z (250 * 2)) with 500. lra.
  - right; right; left. repeat split; try assumption.
    + apply (nearest_multiple_ge p 5 100); [lia|]. change (inject_Z (100 * 5)) with 500. lra.
    + apply (nearest_multiple_le p 5 400); [lia|]. change (inject_Z (400 * 5)) with 2000. lra.
  - right; right; right; left. repeat split; try assumption.
    + apply (nearest_multiple_ge p 10 200); [lia|]. change (inject_Z (200 * 10)) with 2000. lra.
    + apply (nearest_multiple_le p 10 500); [lia|]. change (inject_Z (500 * 10)) with 5000. lra.
  - right; right; right; right. repeat split; try assumption.
    apply (nearest_multiple_ge p 25 200); [lia|]. change (inject_Z (200 * 25)) with 5000. lra.
Qed.

End RoundPriceBands.

Section RoundPriceTheorems.

Import Utils.

Local Open Scope Q_scope.

(** X11: [getFraction] is a step function of the price: its value is one
    of 1, 2, 5, 10 and 25, and a higher price never has a smaller
    fraction. *)
Theorem getFraction_steps (p q : Q) :
  In (getFraction p) [1; 2; 5; 10; 25]%Z /\
  (p <= q -> (getFraction p <= getFraction q)%Z).
Proof.
  split.
  - destruct (getFraction_band p)
      as [(_ & ->)|[(_ & _ & ->)|[(_ & _ & ->)|[(_ & _ & ->)|(_ & ->)]]]];
      cbn; tauto.
  - intros Hpq.
    destruct (getFraction_band p)
      as [(P1 & ->)|[(P1 & P2 & ->)|[(P1 & P2 & ->)|[(P1 & P2 & ->)|(P1 & ->)]]]];
    destruct (getFraction_band q)
      as [(Q1 & ->)|[(Q1 & Q2 & ->)|[(Q1 & Q2 & ->)|[(Q1 & Q2 & ->)|(Q1 & ->)]]]];
    first [lia | exfalso; lra].
Qed.

Lemma getFraction_steps_example : (getFraction 499 <= getFraction 500)%Z.
Proof.
  refine (proj2 (getFraction_steps 499 500) _). vm_compute. discriminate.
Defined.

(** X14: [roundPrice] keeps the order of prices, across the changes of
    fraction as well: a higher price never rounds to a lower value. *)
Theorem roundPrice_monotone (p q : Q) :
  p <= q -> (roundPrice p <= roundPrice q)%Z.
Proof.
  intros Hpq.
  destruct (roundPrice_band p)
    as [(P1 & Pf & PB)|[(P1 & P2 & Pf & PB)|[(P1 & P2 & Pf & PB)|
        [(P1 & P2 & Pf & PB)|(P1 & Pf & PB)]]]];
  destruct (roundPrice_band q)
    as [(Q1 & Qf & QB)|[(Q1 & Q2 & Qf & QB)|[(Q1 & Q2 & Qf & QB)|
        [(Q1 & Q2 & Qf & QB)|(Q1 & Qf & QB)]]]];
  try lia; try (exfalso; lra);
  rewrite (roundPrice_eq p), (roundPrice_eq q), Pf, Qf;
  (apply nearest_multiple_mono; [lia | exact Hpq]).
Qed.

Lemma roundPrice_monotone_example :
  (roundPrice (999 # 2) <= roundPrice 501)%Z.
Proof.
  refine (roundPrice_monotone (999 # 2) 501 _). vm_compute. discriminate.
Defined.

End RoundPriceTheorems.

(** * Area paths *)

Section AreaPaths.

Import Utils.

Lemma index_defined {A : Type} (l : list A) (i : Z) :
  0 <= i -> (Js.index l i <> None <-> i < Z.of_nat (List.length l)).
Proof.
  intros Hi. unfold Js.index. destruct (Z.ltb_spec i 0); [lia|].
  rewrite nth_error_Some. lia.
Qed.

Lemma areaLines_length (xs ys : list Z) : forall i,
  List.length (areaLines i xs ys) = List.length xs.
Proof.
  induction xs as [|x xs IH]; intros i; cbn; [reflexivity|]. rewrite IH. reflexivity.
Qed.

Lemma areaLines_defined (xs ys : list Z) : forall i,
  0 <= i ->
  definedPath (areaLines i xs ys) <->
  xs = [] \/ i + Z.of_nat (List.length xs) <= Z.of_nat (List.length ys).
Proof.
  unfold definedPath. induction xs as [|x xs IH]; intros i Hi; cbn [areaLines].
  - split; [left; reflexivity | constructor].
  - rewrite Forall_cons_iff, (IH (i + 1)) by lia.
    pose proof (index_defined ys i Hi) as Hidx.
    cbn [List.length]. destruct (Js.index ys i) eqn:E.
    + assert (i < Z.of_nat (List.length ys)) by (apply Hidx; discriminate).
      split.
      * intros (_ & [->|H1]); right; cbn [List.length]; lia.
      * intros [H0|H1]; [discriminate H0|]. split; [exact I|]. right. lia.
    + assert (~ i < Z.of_nat (List.length ys)) by (intros H; apply Hidx in H; congruence).
      split; [intros ([] & _)|]. intros [H0|H1]; [discriminate H0|lia].
Qed.

Lemma createAreaPath_defined (xs ys : list Z) (width y : Z) :
  definedPath (createAreaPath xs ys width y) <->
  (List.length xs <= List.length ys)%nat.
Proof.
  unfold createAreaPath, definedPath. rewrite Forall_cons_iff, Forall_app.
  fold (definedPath (areaLines 0 xs ys)).
  rewrite (areaLines_defined xs ys 0) by lia. split.
  - intros (_ & [->|H] & _); cbn [List.length]; lia.
  - intros H. split; [exact I|]. split; [right; lia|].
    constructor; [exact I|constructor].
Qed.

(** X15: the path of [createAreaPath] has one call more at each end than
    [xs] has points: it starts with [moveTo(0, y)], ends with
    [lineTo(width, y)], and all its coordinates are defined exactly when
    [ys] has at least as many entries as [xs]; with a shorter [ys] some
    [lineTo] gets [undefined]. *)
Theorem createAreaPath_shape (xs ys : list Z) (width y : Z) :
  List.length (createAreaPath xs ys width y) = S (S (List.length xs)) /\
  hd_error (createAreaPath xs ys width y) = Some (MoveTo 0 y) /\
  last (createAreaPath xs ys width y) (MoveTo 0 y) = LineTo width (Some y) /\
  (definedPath (createAreaPath xs ys width y) <->
   (List.length xs <= List.length ys)%nat).
Proof.
  unfold createAreaPath. split; [|split; [|split]].
  - cbn [List.length]. rewrite length_app, areaLines_length. cbn. lia.
  - reflexivity.
  - rewrite app_comm_cons. apply last_last.
  - fold (createAreaPath xs ys width y). apply createAreaPath_defined.
Qed.

Lemma fillPathBetween_defined (canvasHeight : Z) (xs y1 y2 : list Z) (color : string) :
  definedOps (fillPathBetween canvasHeight xs y1 y2 color) <->
  xs = [] \/ ((List.length xs <= List.length y1)%nat /\
              (List.length xs <= List.length y2)%nat).
Proof.
  unfold fillPathBetween, definedOps. destruct xs as [|x xs].
  - split; [left; reflexivity | constructor].
  - set (l := x :: xs).
    repeat rewrite Forall_cons_iff.
    rewrite (createAreaPath_defined l y1 (last l 0) canvasHeight).
    rewrite (createAreaPath_defined l y2 (last l 0) 0).
    split.
    + intros (_ & _ & H1 & H2 & _). right. tauto.
    + intros [H0|(H1 & H2)]; [discriminate H0|].
      repeat split; try assumption. constructor.
Qed.

(** X16: [fillPathBetween] does not touch the context when [xs] is
    empty; otherwise it makes five calls, the first [save] and the last
    [restore], and the two polygons it clips and fills have only defined
    coordinates exactly when both [y1] and [y2] have at least as many
    entries as [xs]. *)
Theorem fillPathBetween_calls (canvasHeight : Z) (xs y1 y2 : list Z) (color : string) :
  (xs = [] -> fillPathBetween canvasHeight xs y1 y2 color = []) /\
  (xs <> [] ->
   List.length (fillPathBetween canvasHeight xs y1 y2 color) = 5%nat /\
   hd_error (fillPathBetween canvasHeight xs y1 y2 color) = Some Save /\
   last (fillPathBetween canvasHeight xs y1 y2 color) Save = Restore /\
   (definedOps (fillPathBetween canvasHeight xs y1 y2 color) <->
    (List.length xs <= List.length y1)%nat /\ (List.length xs <= List.length y2)%nat)).
Proof.
  split.
  - intros ->. reflexivity.
  - intros Hne. rewrite fillPathBetween_defined.
    destruct xs as [|x xs]; [congruence|].
    repeat split; try reflexivity; try tauto.
Qed.

(** Three points, of which [y2] covers only two. *)
Lemma fillPathBetween_calls_example :
  ~ definedOps (fillPathBetween 100 [1; 2; 3] [5; 6; 7] [8; 9] "#EB4C42").
Proof.
  intros H.
  apply (proj2 (fillPathBetween_calls 100 [1; 2; 3] [5; 6; 7] [8; 9] "#EB4C42")) in H.
  - cbn in H. lia.
  - discriminate.
Defined.

End AreaPaths.

(** * The candle bar view *)

Section CandleBars.

Import Utils CandleBarView.

(** X17: for the OHLC type, [drawImp] takes a bar thickness of a fifth
    of the bar width, at least 1 and at most 8 and even once it is above 2
    (so one of 1, 2, 4, 6, 8), never thinner for a wider bar; the half
    thickness it derives is always 0, since it is halved from its own
    initial 0.  For the other types both stay 0. *)
Theorem ohlcSizes_values (type : CandleType) (gapBar : Z) :
  snd (ohlcSizes type gapBar) = 0 /\
  (type = Ohlc ->
   In (fst (ohlcSizes type gapBar)) [1; 2; 4; 6; 8] /\
   forall wider, gapBar <= wider ->
     fst (ohlcSizes type gapBar) <= fst (ohlcSizes type wider)) /\
  (type <> Ohlc -> fst (ohlcSizes type gapBar) = 0).
Proof.
  assert (Hclamp : forall g, 1 <= Z.min (Z.max (mathRound (inject_Z g * (2 # 10))) 1) 8 <= 8)
    by (intros g; lia).
  assert (Heven : forall m, 1 <= m <= 8 ->
            In (if (2 <? m) && (Z.rem m 2 =? 1) then m - 1 else m) [1; 2; 4; 6; 8] /\
            forall m', m <= m' <= 8 ->
              (if (2 <? m) && (Z.rem m 2 =? 1) then m - 1 else m) <=
              (if (2 <? m') && (Z.rem m' 2 =? 1) then m' - 1 else m')).
  { intros m Hm.
    assert (Hc : m = 1 \/ m = 2 \/ m = 3 \/ m = 4 \/ m = 5 \/ m = 6 \/ m = 7 \/ m = 8) by lia.
    split.
    - destruct Hc as [-> | [-> | [-> | [-> | [-> | [-> | [-> | ->] ] ] ] ] ] ]; cbn; tauto.
    - intros m' Hm'.
      assert (Hc' : m' = 1 \/ m' = 2 \/ m' = 3 \/ m' = 4 \/ m' = 5 \/ m' = 6 \/
                    m' = 7 \/ m' = 8) by lia.
      destruct Hc as [-> | [-> | [-> | [-> | [-> | [-> | [-> | ->] ] ] ] ] ] ];
        destruct Hc' as [-> | [-> | [-> | [-> | [-> | [-> | [-> | ->] ] ] ] ] ] ];
        cbn; lia. }
  split; [destruct type; reflexivity|]. split.
  - intros ->. cbn [ohlcSizes fst]. split; [apply Heven, Hclamp|].
    intros wider Hw. apply Heven; [apply Hclamp|]. split; [|apply Hclamp].
    apply Z.min_le_compat_r, Z.max_le_compat_r, mathRound_mono.
    apply Qmult_le_compat_r; [rewrite <- Zle_Qle; exact Hw | discriminate].
  - intros Hne. destruct type; try reflexivity. congruence.
Qed.

(** A bar width of 17 pixels: a thickness of 2 (17 / 5 rounds to 3, made
    even). *)
Lemma ohlcSizes_example : In (fst (ohlcSizes Ohlc 17)) [1; 2; 4; 6; 8].
Proof. exact (proj1 (proj1 (proj2 (ohlcSizes_values Ohlc 17)) eq_refl)). Defined.

(** The four sorted pixel values of a bar. *)
Lemma sortNumbers_four (a b c d : Z) :
  exists p0 p1 p2 p3,
    sortNumbers [a; b; c; d] = [p0; p1; p2; p3] /\
    p0 <= p1 /\ p1 <= p2 /\ p2 <= p3 /\
    p0 = Z.min (Z.min a b) (Z.min c d) /\
    p3 = Z.max (Z.max a b) (Z.max c d).
Proof.
  cbn [sortNumbers insertNumber].
  destruct (Z.leb_spec c d); cbn [insertNumber];
    repeat match goal with
           | |- context [if ?x <=? ?y then _ else _] =>
             destruct (Z.leb_spec x y); cbn [insertNumber]
           end;
    do 4 eexists; (split; [reflexivity|]); lia.
Qed.

End CandleBars.

Section CandleRects.

Import Utils CandleBarView.

Variable yAxis : Q -> Z.
Variable barSpace : BarSpace.
Variable styles : CandleBarColor.

Lemma ohlcSize_range : 1 <= fst (ohlcSizes Ohlc (gapBar barSpace)) <= 8.
Proof.
  cbn [ohlcSizes fst].
  set (m := Z.min (Z.max (mathRound (inject_Z (gapBar barSpace) * (2 # 10))) 1) 8).
  assert (Hm : 1 <= m <= 8) by (unfold m; lia).
  destruct ((2 <? m) && (Z.rem m 2 =? 1)) eqn:E; [|lia].
  apply andb_true_iff in E as (E & _). apply Z.ltb_lt in E. lia.
Qed.

(** X18: whatever the y axis does to prices (it may grow upward or
    downward, or not be monotonic at all), every rectangle that [drawImp]
    creates for a bar has a height that is not negative; for the candle
    types it starts no higher than the bar's highest pixel and ends at most
    one pixel (the minimal body) below its lowest; for the OHLC type it never
    reaches below the lowest pixel. *)
Theorem bar_rects_within_span
    (type : CandleType) (item : VisibleData) (k : Candle)
    (fig : FigureCreate) (r : RectAttrs) :
  vd_data item = Some k ->
  In fig (drawnRects yAxis barSpace styles type item) ->
  In r (fig_attrs fig) ->
  0 <= rect_height r /\
  (type <> Ohlc ->
   spanTop yAxis k <= rect_y r /\ rect_y r + rect_height r <= spanBottom yAxis k + 1) /\
  (type = Ohlc -> rect_y r + rect_height r <= spanBottom yAxis k).
Proof.
  intros Hk Hfig Hr. unfold drawnRects in Hfig. rewrite Hk in Hfig.
  pose proof ohlcSize_range as Hsz.
  unfold barRects in Hfig.
  destruct (sortNumbers_four (yAxis (open k)) (yAxis (close k))
              (yAxis (high k)) (yAxis (low k)))
    as (p0 & p1 & p2 & p3 & Hsort & H01 & H12 & H23 & Hmin & Hmax).
  rewrite Hsort in Hfig. fold (spanTop yAxis k) in Hmin. fold (spanBottom yAxis k) in Hmax.
  unfold _createSolidBar, _createStrokeBar, priceAt in Hfig.
  destruct type; cbn [drawnByPaths] in Hfig; cbn [In] in Hfig; try contradiction;
    try (destruct (rises k)); try (destruct (falls k));
    cbn [In nth] in Hfig;
    repeat match goal with
           | H : _ \/ _ |- _ => destruct H as [H|H]
           | H : False |- _ => destruct H
           end;
    subst fig; cbn [fig_attrs In] in Hr;
    repeat match goal with
           | H : _ \/ _ |- _ => destruct H as [H|H]
           | H : False |- _ => destruct H
           end;
    subst r; cbn [rect_height rect_y];
    (split; [|split]); try congruence; try lia;
    intros _;
    repeat match goal with
           | |- context [if ?a <? ?b then _ else _] => destruct (Z.ltb_spec a b)
           end; lia.
Qed.

(** X19: the three rectangles of a stroke candle stack without a gap,
    whatever the y axis: the upper wick starts at the top of the bar's span
    and ends where the body starts, the lower wick ends at the bottom of the
    span, and the body ends where the lower wick starts, or one pixel below
    its own start when the two middle values coincide. *)
Theorem stroke_bar_tiles_span (item : VisibleData) (k : Candle) :
  vd_data item = Some k ->
  exists upper lower body s1 s2,
    drawnRects yAxis barSpace styles CandleStroke item =
      [ {| fig_name := "rect"; fig_attrs := [upper; lower]; fig_styles := s1 |};
        {| fig_name := "rect"; fig_attrs := [body]; fig_styles := s2 |} ] /\
    rect_y upper = spanTop yAxis k /\
    rect_y upper + rect_height upper = rect_y body /\
    rect_y body + rect_height body = Z.max (rect_y body + 1) (rect_y lower) /\
    rect_y lower + rect_height lower = spanBottom yAxis k.
Proof.
  intros Hk. unfold drawnRects. rewrite Hk. cbn [drawnByPaths]. unfold barRects.
  destruct (sortNumbers_four (yAxis (open k)) (yAxis (close k))
              (yAxis (high k)) (yAxis (low k)))
    as (p0 & p1 & p2 & p3 & Hsort & H01 & H12 & H23 & Hmin & Hmax).
  rewrite Hsort. fold (spanTop yAxis k) in Hmin. fold (spanBottom yAxis k) in Hmax.
  unfold _createStrokeBar, priceAt. cbn [nth].
  do 5 eexists. split; [reflexivity|]. cbn [rect_y rect_height]. lia.
Qed.

End CandleRects.

(** The rising bar of the sample on a downward axis, as a stroke candle:
    its body. *)
Lemma bar_rects_within_span_example :
  let r := {| CandleBarView.rect_x := 1; CandleBarView.rect_y := 70;
              CandleBarView.rect_width := 6; CandleBarView.rect_height := 30 |} in
  0 <= CandleBarView.rect_height r /\
  (CandleBarView.CandleStroke <> CandleBarView.Ohlc ->
   CandleBarView.spanTop CandleBarView.sampleAxis CandleBarView.sampleRising
     <= CandleBarView.rect_y r /\
   CandleBarView.rect_y r + CandleBarView.rect_height r
     <= CandleBarView.spanBottom CandleBarView.sampleAxis CandleBarView.sampleRising + 1) /\
  (CandleBarView.CandleStroke = CandleBarView.Ohlc ->
   CandleBarView.rect_y r + CandleBarView.rect_height r
     <= CandleBarView.spanBottom CandleBarView.sampleAxis CandleBarView.sampleRising).
Proof.
  refine (bar_rects_within_span CandleBarView.sampleAxis CandleBarView.sampleSpace
            CandleBarView.sampleColors CandleBarView.CandleStroke
            {| CandleBarView.vd_data := Some CandleBarView.sampleRising;
               CandleBarView.vd_x := 4 |}
            CandleBarView.sampleRising
            (nth 1 (CandleBarView.drawnRects CandleBarView.sampleAxis
                      CandleBarView.sampleSpace CandleBarView.sampleColors
                      CandleBarView.CandleStroke
                      {| CandleBarView.vd_data := Some CandleBarView.sampleRising;
                         CandleBarView.vd_x := 4 |})
                 {| CandleBarView.fig_name := ""; CandleBarView.fig_attrs := [];
                    CandleBarView.fig_styles :=
                      {| CandleBarView.rs_style := None; CandleBarView.rs_color := None;
                         CandleBarView.rs_borderColor := None |} |})
            _ eq_refl _ _).
  - right. left. reflexivity.
  - left. reflexivity.
Defined.

(** The same bar: upper wick 60 to 70, body 70 to 100, lower wick 100
    to 110. *)
Lemma stroke_bar_tiles_span_example :
  exists upper lower body s1 s2,
    CandleBarView.drawnRects CandleBarView.sampleAxis CandleBarView.sampleSpace
      CandleBarView.sampleColors CandleBarView.CandleStroke
      {| CandleBarView.vd_data := Some CandleBarView.sampleRising;
         CandleBarView.vd_x := 4 |} =
      [ {| CandleBarView.fig_name := "rect"; CandleBarView.fig_attrs := [upper; lower];
           CandleBarView.fig_styles := s1 |};
        {| CandleBarView.fig_name := "rect"; CandleBarView.fig_attrs := [body];
           CandleBarView.fig_styles := s2 |} ] /\
    CandleBarView.rect_y upper = 60 /\
    CandleBarView.rect_y upper + CandleBarView.rect_height upper = CandleBarView.rect_y body /\
    CandleBarView.rect_y body + CandleBarView.rect_height body =
      Z.max (CandleBarView.rect_y body + 1) (CandleBarView.rect_y lower) /\
    CandleBarView.rect_y lower + CandleBarView.rect_height lower = 110.
Proof.
  exact (stroke_bar_tiles_span CandleBarView.sampleAxis CandleBarView.sampleSpace
           CandleBarView.sampleColors
           {| CandleBarView.vd_data := Some CandleBarView.sampleRising;
              CandleBarView.vd_x := 4 |}
           CandleBarView.sampleRising eq_refl).
Defined.

Section DrawOhlc.

Import Utils CandleBarView.

Variable yAxis : Q -> Z.
Variable barSpace : BarSpace.
Variable styles : CandleBarColor.

Lemma verticalStrokes_app (down : bool) (n : nat) : forall p q : Path2D,
  (List.length p <= n)%nat ->
  verticalStrokes down p -> verticalStrokes down q ->
  verticalStrokes down (p ++ q)%list.
Proof.
  induction n as [|n IH]; intros p q Hlen Hp Hq.
  - destruct p; [exact Hq | cbn in Hlen; lia].
  - destruct p as [|[x1 y1|x1 y1|x1 y1 w1 h1] p];
      [exact Hq | | cbn in Hp; contradiction | cbn in Hp; contradiction].
    destruct p as [|[x2 y2|x2 [y2|]|x2 y2 w2 h2] p];
      try (cbn in Hp; contradiction).
    cbn [verticalStrokes app] in *. destruct Hp as (Hx & Hy & Hrest).
    split; [exact Hx|]. split; [exact Hy|].
    apply IH; [cbn in Hlen; lia | exact Hrest | exact Hq].
Qed.

Lemma verticalStrokes_snoc (down : bool) (p : Path2D) (x y1 y2 : Z) :
  verticalStrokes down p ->
  (if down then y1 < y2 else y1 <> y2) ->
  verticalStrokes down (p ++ [MoveTo x y1; LineTo x (Some y2)])%list.
Proof.
  intros Hp Hy. apply (verticalStrokes_app down (List.length p)); [lia | exact Hp|].
  cbn. tauto.
Qed.

Lemma bodiesAtLeast_snoc (h : Z) (p : Path2D) (x y height : Z) :
  bodiesAtLeast barSpace h p -> h <= height ->
  bodiesAtLeast barSpace h (p ++ [RectCmd x y (gapBar barSpace) height])%list.
Proof.
  intros Hp Hh. unfold bodiesAtLeast. apply Forall_app. split; [exact Hp|].
  constructor; [split; [reflexivity|exact Hh] | constructor].
Qed.

(** What holds of the paths after [n] bars with data. *)
Let Inv (n : nat) (groups : Groups) : Prop :=
  (forall name, groups Green name = [] /\ groups Red name = []) /\
  (bodiesAtLeast barSpace (minBarHeight barSpace) (groups Default UpRect) /\
   bodiesAtLeast barSpace (minBarHeight barSpace) (groups Default DownRect) /\
   bodiesAtLeast barSpace (minBarHeight barSpace) (groups Default NoChangeRect)) /\
  (List.length (groups Default UpRect) + List.length (groups Default DownRect) +
   List.length (groups Default NoChangeRect) = n)%nat /\
  (verticalStrokes true (groups Default UpWickTop) /\
   verticalStrokes true (groups Default UpWickBot) /\
   verticalStrokes true (groups Default DownWickTop) /\
   verticalStrokes true (groups Default DownWickBot) /\
   verticalStrokes false (groups Default NoChangeWick)).

Lemma ohlcItem_inv (n : nat) (st : option string * Groups) (item : VisibleData) :
  Inv n (snd st) ->
  Inv (n + (if hasData item then 1 else 0)) (snd (ohlcItem yAxis barSpace st item)).
Proof.
  destruct st as [prevColor groups]. unfold Inv, ohlcItem, hasData. cbn [snd].
  intros (Hother & (Hup & Hdown & Hflat) & Hcount & (W1 & W2 & W3 & W4 & W5)).
  destruct (vd_data item) as [data|]; cbn [snd];
    [|repeat split; try assumption; try apply Hother; lia].
  destruct (rises data); [|destruct (falls data)];
    repeat match goal with
           | |- context [if ?a <? ?b then _ else _] => destruct (Z.ltb_spec a b)
           | |- context [if negb (?a =? ?b) then _ else _] => destruct (Z.eqb_spec a b)
           end;
    unfold addTo; cbn [sameGroup samePath andb negb];
    repeat split;
    try apply Hother; try assumption;
    try (apply bodiesAtLeast_snoc; [assumption|lia]);
    try (apply verticalStrokes_snoc; [assumption|cbn; lia]);
    try (rewrite ?length_app; cbn [List.length]; lia).
Qed.

Lemma ohlcFold_inv (l : list VisibleData) : forall (n : nat) (st : option string * Groups),
  Inv n (snd st) ->
  Inv (n + List.length (filter hasData l))
      (snd (fold_left (ohlcItem yAxis barSpace) l st)).
Proof.
  induction l as [|item l IH]; intros n st H; cbn [fold_left filter].
  - replace (n + List.length (@nil VisibleData))%nat with n by (cbn; lia). exact H.
  - apply (ohlcItem_inv n st item) in H. apply IH in H.
    destruct (hasData item); cbn [List.length];
      [replace (n + S (List.length (filter hasData l)))%nat
         with (n + 1 + List.length (filter hasData l))%nat by lia
      |replace (n + List.length (filter hasData l))%nat
         with (n + 0 + List.length (filter hasData l))%nat by lia]; exact H.
Qed.

(** X22: [_drawOhlc] gives every bar that has data exactly one body, in
    the up, the down or the no-change rectangle path of the default group;
    every body is as wide as the bar and at least [minBarHeight] high, which
    is at least 2; and nothing is ever drawn into the green and the red
    group, which are painted empty. *)
Theorem drawOhlc_bodies (visibleDataList : list VisibleData) :
  let groups := ohlcGroups yAxis barSpace visibleDataList in
  (List.length (groups Default UpRect) + List.length (groups Default DownRect) +
   List.length (groups Default NoChangeRect) =
   List.length (filter hasData visibleDataList))%nat /\
  bodiesAtLeast barSpace (minBarHeight barSpace) (groups Default UpRect) /\
  bodiesAtLeast barSpace (minBarHeight barSpace) (groups Default DownRect) /\
  bodiesAtLeast barSpace (minBarHeight barSpace) (groups Default NoChangeRect) /\
  2 <= minBarHeight barSpace /\
  (forall name, groups Green name = [] /\ groups Red name = []) /\
  _drawOhlc yAxis barSpace styles visibleDataList =
    (paintGroup barSpace styles (groups Default) (upColor styles) (downColor styles) ++
     paintGroup barSpace styles (fun _ => []) "#00C843" "#F07427" ++
     paintGroup barSpace styles (fun _ => []) "#FF9F9F" "#DE1E1E")%list.
Proof.
  cbv zeta. unfold _drawOhlc, ohlcGroups.
  destruct (ohlcFold_inv visibleDataList 0 (None, createGroups))
    as (Hother & (Hup & Hdown & Hflat) & Hcount & _).
  { unfold Inv, createGroups, bodiesAtLeast. cbn.
    repeat split; try constructor. }
  repeat split; try assumption; try apply Hother.
  - unfold minBarHeight. lia.
  - unfold paintGroup.
    rewrite !(proj1 (Hother _)), !(proj2 (Hother _)). reflexivity.
Qed.

(** X23: every wick that [_drawOhlc] draws has a length: in the four
    wick paths of rising and falling bars each stroke runs from its
    [moveTo] strictly downward on screen, and in the no-change path its two
    ends differ; a wick of no length is never added. *)
Theorem drawOhlc_wicks (visibleDataList : list VisibleData) :
  let groups := ohlcGroups yAxis barSpace visibleDataList in
  verticalStrokes true (groups Default UpWickTop) /\
  verticalStrokes true (groups Default UpWickBot) /\
  verticalStrokes true (groups Default DownWickTop) /\
  verticalStrokes true (groups Default DownWickBot) /\
  verticalStrokes false (groups Default NoChangeWick).
Proof.
  cbv zeta. unfold ohlcGroups.
  destruct (ohlcFold_inv visibleDataList 0 (None, createGroups))
    as (_ & _ & _ & Hwicks).
  { unfold Inv, createGroups, bodiesAtLeast. cbn.
    repeat split; try constructor. }
  exact Hwicks.
Qed.

End DrawOhlc.

Section DrawShade3.

Import Utils CandleBarView.

Variable yAxis : Q -> Z.

Lemma shadeFold_lengths (l : list VisibleData) :
  forall (xs cl hi lo : list Z),
    List.length cl = List.length xs ->
    List.length hi = List.length xs ->
    List.length lo = List.length xs ->
    exists xs' cl' hi' lo',
      fold_left (shadeItem yAxis) l (xs, cl, hi, lo) = (xs', cl', hi', lo') /\
      List.length cl' = List.length xs' /\
      List.length hi' = List.length xs' /\
      List.length lo' = List.length xs' /\
      List.length xs' = (List.length xs + List.length (filter hasData l))%nat.
Proof.
  induction l as [|item l IH]; intros xs cl hi lo Hc Hh Hl; cbn [fold_left filter].
  - exists xs, cl, hi, lo. cbn. repeat split; try assumption. lia.
  - unfold shadeItem at 2. unfold hasData at 1.
    destruct (vd_data item) as [data|].
    + destruct (IH (xs ++ [vd_x item])%list (cl ++ [yAxis (close data)])%list
                  (hi ++ [yAxis (high data)])%list (lo ++ [yAxis (low data)])%list)
        as (xs' & cl' & hi' & lo' & Hfold & Hc' & Hh' & Hl' & Hx');
        try (rewrite !length_app; cbn [List.length]; lia).
      exists xs', cl', hi', lo'. rewrite length_app in Hx'. cbn [List.length] in *.
      repeat split; try assumption. lia.
    + apply IH; assumption.
Qed.

(** X24: in [_drawShade3] the four arrays grow together, one entry per
    bar that has data, so the polygons handed to [fillPathBetween] never get
    an [undefined] coordinate; with no bar that has data nothing is drawn,
    and otherwise the context gets the ten calls of the two fills. *)
Theorem drawShade3_defined (canvasHeight : Z) (visibleDataList : list VisibleData) :
  definedOps (_drawShade3 yAxis canvasHeight visibleDataList) /\
  (filter hasData visibleDataList = [] ->
   _drawShade3 yAxis canvasHeight visibleDataList = []) /\
  (filter hasData visibleDataList <> [] ->
   List.length (_drawShade3 yAxis canvasHeight visibleDataList) = 10%nat).
Proof.
  unfold _drawShade3.
  destruct (shadeFold_lengths visibleDataList [] [] [] [] eq_refl eq_refl eq_refl)
    as (xs & cl & hi & lo & -> & Hc & Hh & Hl & Hx).
  cbn [List.length Nat.add] in Hx. split; [|split].
  - unfold definedOps. apply Forall_app. split; apply fillPathBetween_defined; right; lia.
  - intros Hnone. rewrite Hnone in Hx. destruct xs; [reflexivity | discriminate Hx].
  - intros Hsome. destruct xs as [|x xs]; [|reflexivity].
    destruct (filter hasData visibleDataList); [congruence | discriminate Hx].
Qed.

End DrawShade3.

(** The sample list: three bars with data, ten calls. *)
Lemma drawShade3_example :
  List.length (CandleBarView._drawShade3 CandleBarView.sampleAxis 300
                 CandleBarView.sampleList) = 10%nat.
Proof.
  refine (proj2 (proj2 (drawShade3_defined CandleBarView.sampleAxis 300
                          CandleBarView.sampleList)) _).
  vm_compute. discriminate.
Defined.
